(** * Order Ledger Service: a shallow embedding of the procurement back end

    The two service copies, [LAB_1_PROCUREMENT_AGENT/BE/app.py] and
    [LAB_1_PROCUREMENT_AGENT/backup/BE_google_sheet/app.py], are embedded as
    the modules [BE] and [Backup].  What they share with the Python run time
    (strings, floats, dictionaries, exceptions) and with the spreadsheet
    client comes first. *)

From Stdlib Require Import ZArith NArith Ascii String Floats DecimalString Lia.
From stdpp Require Import base option list strings gmap.

Local Open Scope Z_scope.

(** ** Python strings

    A Python [str] is embedded as a Rocq [string] whose characters are the
    code points below 256 (Latin-1).  [str.strip()] without argument removes
    leading and trailing characters for which [str.isspace] holds;
    [str.lower()] maps each cased character to its lowercase form. *)

Module PyStr.

Definition code (c : ascii) : N := N_of_ascii c.

(** [str.isspace] on one code point: TAB..CR, FS..US, SPACE, NEL, NBSP. *)
Definition isspace (c : ascii) : bool :=
  let n := code c in
  ((9 <=? n) && (n <=? 13) || (28 <=? n) && (n <=? 32)
   || (n =? 133) || (n =? 160))%N.

(** [str.isupper] on one code point: A..Z and the Latin-1 capitals. *)
Definition isupper (c : ascii) : bool :=
  let n := code c in
  ((65 <=? n) && (n <=? 90) || (192 <=? n) && (n <=? 214)
   || (216 <=? n) && (n <=? 222))%N.

Definition lower_char (c : ascii) : ascii :=
  if isupper c then ascii_of_N (code c + 32) else c.

Fixpoint lower (s : string) : string :=
  match s with
  | EmptyString => EmptyString
  | String c s' => String (lower_char c) (lower s')
  end.

Fixpoint lstrip (s : string) : string :=
  match s with
  | EmptyString => EmptyString
  | String c s' => if isspace c then lstrip s' else s
  end.

Fixpoint rstrip (s : string) : string :=
  match s with
  | EmptyString => EmptyString
  | String c s' =>
      match rstrip s' with
      | EmptyString => if isspace c then EmptyString else String c EmptyString
      | r => String c r
      end
  end.

Definition strip (s : string) : string := rstrip (lstrip s).

End PyStr.

(** ** Python floats

    A Python [float] is an IEEE 754 binary64 number: Rocq's primitive
    [float].  Arithmetic and comparisons are the primitive ones; the
    conversions [float(int)], [float(str)] and [str(float)] are built on the
    standard library's [SpecFloat] rounding functions. *)

Module PyFloat.

(** The binary64 number nearest to [(-1)^s * d * 10^k], ties to even. *)
Definition SF_of_decimal (s : bool) (d : positive) (k : Z) : spec_float :=
  if 0 <=? k
  then binary_normalize prec emax (cond_Zopp s (Zpos d * 10 ^ k)) 0 false
  else SFdiv prec emax (S754_finite s d 0)
                       (S754_finite false (Z.to_pos (10 ^ (- k))) 0).

(** [float(z)] for a Python [int]: correctly rounded, [OverflowError] when
    the result would not be finite. *)
Definition of_int (z : Z) : option float :=
  match binary_normalize prec emax z 0 false with
  | S754_infinity _ => None
  | sf => Some (SF2Prim sf)
  end.

Definition digit_of (c : ascii) : option N :=
  let n := N_of_ascii c in
  if ((48 <=? n) && (n <=? 57))%N then Some (n - 48)%N else None.

(** Reads a run of digits in which single underscores may separate digits;
    [prev] tells whether the character just read was a digit. *)
Fixpoint read_digits (prev : bool) (acc : N) (cnt : nat) (s : string)
  : N * nat * string :=
  match s with
  | EmptyString => (acc, cnt, s)
  | String c s' =>
      match digit_of c with
      | Some d => read_digits true (10 * acc + d)%N (S cnt) s'
      | None =>
          if prev && Ascii.eqb c "_" then
            match s' with
            | String c' _ =>
                match digit_of c' with
                | Some _ => read_digits false acc cnt s'
                | None => (acc, cnt, s)
                end
            | EmptyString => (acc, cnt, s)
            end
          else (acc, cnt, s)
      end
  end.

Definition read_sign (s : string) : bool * string :=
  match s with
  | String "-" s' => (true, s')
  | String "+" s' => (false, s')
  | _ => (false, s)
  end.

Definition read_exponent (s : string) : option Z :=
  match s with
  | EmptyString => Some 0
  | String c s' =>
      if Ascii.eqb c "e" || Ascii.eqb c "E" then
        let '(neg, s'') := read_sign s' in
        match read_digits false 0%N 0%nat s'' with
        | (x, S _, EmptyString) => Some (cond_Zopp neg (Z.of_N x))
        | _ => None
        end
      else None
  end.

(** A decimal numeral [digits [. digits] [e [sign] digits]] with at least one
    digit in the mantissa: its digits as one number and its power of ten. *)
Definition read_decimal (s : string) : option (N * Z) :=
  let '(i, ci, s1) := read_digits false 0%N 0%nat s in
  let '(f, cf, s2) :=
    match s1 with
    | String "." s1' => read_digits false i 0%nat s1'
    | _ => (i, 0%nat, s1)
    end in
  match (ci + cf)%nat with
  | O => None
  | S _ => x ← read_exponent s2; Some (f, x - Z.of_nat cf)
  end.

(** The whitespace that [float] and [int] remove around a numeral:
    TAB..CR, SPACE, NEL and NBSP.  Unlike [str.strip] they leave the
    separators FS..US in place, which then make the numeral invalid. *)
Definition space (c : ascii) : bool :=
  let n := N_of_ascii c in
  ((9 <=? n) && (n <=? 13) || (n =? 32) || (n =? 133) || (n =? 160))%N.

Fixpoint lstrip (s : string) : string :=
  match s with
  | EmptyString => EmptyString
  | String c s' => if space c then lstrip s' else s
  end.

Fixpoint rstrip (s : string) : string :=
  match s with
  | EmptyString => EmptyString
  | String c s' =>
      match rstrip s' with
      | EmptyString => if space c then EmptyString else String c EmptyString
      | r => String c r
      end
  end.

Definition strip (s : string) : string := rstrip (lstrip s).

(** [float(s)] for a Python [str]; [None] stands for [ValueError]. *)
Definition of_string (s : string) : option float :=
  let '(neg, body) := read_sign (strip s) in
  let word := PyStr.lower body in
  if String.eqb word "inf" || String.eqb word "infinity"
  then Some (SF2Prim (S754_infinity neg))
  else if String.eqb word "nan" then Some nan
  else
    '(d, k) ← read_decimal body;
    Some (SF2Prim match d with
                  | N0 => S754_zero neg
                  | Npos p => SF_of_decimal neg p k
                  end).

(** *** [str(float)]: the shortest digit string that reads back *)

(** [m * 2^e >= 10^k], on integers. *)
Definition ge_pow10 (m : positive) (e k : Z) : bool :=
  10 ^ Z.max k 0 * 2 ^ Z.max (- e) 0
  <=? Zpos m * 2 ^ Z.max e 0 * 10 ^ Z.max (- k) 0.

Fixpoint adjust_decpt (fuel : nat) (m : positive) (e k : Z) : Z :=
  match fuel with
  | O => k
  | S fuel' =>
      if ge_pow10 m e k then adjust_decpt fuel' m e (k + 1)
      else if ge_pow10 m e (k - 1) then k
      else adjust_decpt fuel' m e (k - 1)
  end.

(** The [k] with [10^(k-1) <= m * 2^e < 10^k]. *)
Definition decpt_of (m : positive) (e : Z) : Z :=
  adjust_decpt 8 m e ((Zpos (digits2_pos m) + e) * 30103 / 100000).

(** The [n]-digit candidates on both sides of [m * 2^e] and which of them
    reads back as [m * 2^e]; the nearer one wins when both do. *)
Definition digits_at (m : positive) (e k n : Z) : option (Z * Z) :=
  let j := n - k in
  let num := Zpos m * 2 ^ Z.max e 0 * 10 ^ Z.max j 0 in
  let den := 2 ^ Z.max (- e) 0 * 10 ^ Z.max (- j) 0 in
  let q := num / den in
  let r := num mod den in
  let back c :=
    match c with
    | Zpos p => SFeqb (SF_of_decimal false p (k - n)) (S754_finite false m e)
    | _ => false
    end in
  let lo := back q in
  let hi := back (q + 1) in
  let pick_hi := Some (if q + 1 =? 10 ^ n then (10 ^ (n - 1), k + 1)
                       else (q + 1, k)) in
  match lo, hi with
  | true, true =>
      match 2 * r ?= den with
      | Lt => Some (q, k)
      | Gt => pick_hi
      | Eq => if Z.even q then Some (q, k) else pick_hi
      end
  | true, false => Some (q, k)
  | false, true => pick_hi
  | false, false => None
  end.

Fixpoint shortest (fuel : nat) (m : positive) (e k n : Z) : Z * Z :=
  match fuel with
  | O => (Zpos m * 2 ^ Z.max e 0 * 10 ^ Z.max (n - k) 0
          / (2 ^ Z.max (- e) 0 * 10 ^ Z.max (k - n) 0), k)
  | S fuel' =>
      match digits_at m e k n with
      | Some dk => dk
      | None => shortest fuel' m e k (n + 1)
      end
  end.

Definition digits_string (z : Z) : string :=
  NilZero.string_of_uint (N.to_uint (Z.to_N z)).

Fixpoint zeros (n : nat) : string :=
  match n with
  | O => EmptyString
  | S n' => String "0" (zeros n')
  end.

Definition take_string (n : nat) (s : string) : string := substring 0 n s.
Definition drop_string (n : nat) (s : string) : string :=
  substring n (String.length s - n) s.

(** [repr] of a positive finite number from its digits [ds] and decimal
    point position [k] (the value is [0.ds * 10^k]). *)
Definition format_digits (ds : string) (k : Z) : string :=
  let n := Z.of_nat (String.length ds) in
  if (k <=? -4) || (16 <? k) then
    let x := k - 1 in
    let xs := digits_string (Z.abs x) in
    take_string 1 ds
    +:+ (if 1 <? n then String "." (drop_string 1 ds) else EmptyString)
    +:+ String "e" ((if x <? 0 then "-" else "+")
                    +:+ (if Z.abs x <? 10 then String "0" xs else xs))
  else if k <=? 0 then String "0" (String "." (zeros (Z.to_nat (- k)) +:+ ds))
  else if k <? n then
    take_string (Z.to_nat k) ds +:+ String "." (drop_string (Z.to_nat k) ds)
  else ds +:+ zeros (Z.to_nat (k - n)) +:+ String "." "0".

Definition sign_string (s : bool) : string := if s then "-" else "".

(** [str(x)] (the same string as [repr(x)]) for a Python [float]. *)
Definition to_string (x : float) : string :=
  match Prim2SF x with
  | S754_nan => "nan"
  | S754_infinity s => sign_string s +:+ "inf"
  | S754_zero s => sign_string s +:+ "0.0"
  | S754_finite s m e =>
      let '(d, k) := shortest 17 m e (decpt_of m e) 1 in
      sign_string s +:+ format_digits (digits_string d) k
  end.

End PyFloat.

(** [int(s)] for a Python [str]: an optional sign and digits, with single
    underscores between digits, inside optional whitespace; [None] stands
    for [ValueError]. *)
Module PyInt.

Definition of_string (s : string) : option Z :=
  let '(neg, body) := PyFloat.read_sign (PyFloat.strip s) in
  match PyFloat.read_digits false 0%N 0%nat body with
  | (n, S _, EmptyString) => Some (cond_Zopp neg (Z.of_N n))
  | _ => None
  end.

End PyInt.

(** ** Python values, exceptions and dictionaries *)

(** A cell as [gspread] hands it over: [get_all_records] turns a cell that
    reads as a number into an [int] or a [float] and leaves every other
    cell a [str]. *)
Inductive value :=
  | VInt (z : Z)
  | VFloat (x : float)
  | VStr (s : string).

(** The result of running Python code that may raise; an exception is kept
    as its message [str(e)], which is all the handlers of the service use. *)
Inductive outcome (A : Type) :=
  | Return (a : A)
  | Raise (msg : string).
Arguments Return {A} a.
Arguments Raise {A} msg.

#[global] Instance outcome_ret : MRet outcome := @Return.
#[global] Instance outcome_bind : MBind outcome := λ A B f m,
  match m with
  | Return a => f a
  | Raise msg => Raise msg
  end.

Definition str_of_int (z : Z) : string := NilZero.string_of_int (Z.to_int z).

(** [str(v)]. *)
Definition py_str (v : value) : string :=
  match v with
  | VInt z => str_of_int z
  | VFloat x => PyFloat.to_string x
  | VStr s => s
  end.

(** [float(v)]; [None] stands for the [ValueError] or [OverflowError] that
    the caller catches at once. *)
Definition py_float (v : value) : option float :=
  match v with
  | VInt z => PyFloat.of_int z
  | VFloat x => Some x
  | VStr s => PyFloat.of_string s
  end.

(** [v.strip()]: only a [str] has the method. *)
Definition py_strip (v : value) : outcome string :=
  match v with
  | VStr s => Return (PyStr.strip s)
  | VInt _ => Raise "'int' object has no attribute 'strip'"
  | VFloat _ => Raise "'float' object has no attribute 'strip'"
  end.

(** What the client makes of a cell when it reads it: text that [int] or
    [float] accepts comes back as that number, every other cell as it is. *)
Definition numericise (v : value) : value :=
  match v with
  | VStr s =>
      match PyInt.of_string s with
      | Some z => VInt z
      | None =>
          match PyFloat.of_string s with
          | Some x => VFloat x
          | None => VStr s
          end
      end
  | _ => v
  end.

Arguments numericise : simpl never.

(** A fetched row: a [dict] from column name to cell. *)
Abbreviation row := (gmap string value).

(** [d.get(key, default)]. *)
Definition dict_get (d : row) (key : string) (dflt : value) : value :=
  default dflt (d !! key).

(** [dict(zip(keys, vals))]: a later pair overwrites an earlier one. *)
Definition dict_zip (keys : list string) (vals : list value) : row :=
  foldl (λ d kv, <[kv.1 := kv.2]> d) ∅ (zip keys vals).

(** ** The remote row store

    The spreadsheet behind [get_gsheet] is the external collaborator of
    section 6 of the specification: [fetch_all_rows] returns one record per
    row and [append_row] takes an ordered list of values. *)

(** Modelled from the spec: the sheet that the [gspread] client reaches,
    which is no part of the repository.  It holds a header line and the rows
    below it, each cell as it was written; a row shorter than the header
    reads as padded with empty cells; on reading, a text cell that looks
    numeric comes back as a number (section 4.1: the store may return it as
    a number if it looks numeric), every other cell as it was written.  Each
    access may fail with a message, and a failed append leaves the sheet as
    it was (section 4.1: an append is all-or-nothing). *)
Record Sheet := {
  header : list string;
  rows : list (list value);
  open_fault : option string;     (* [get_gsheet] raises *)
  read_fault : option string;     (* [get_all_records] raises *)
  append_fault : option string;   (* [append_row] raises *)
}.

(** Code that runs against the store: a state and exception monad. *)
Definition Py (A : Type) : Type := Sheet → outcome A * Sheet.

#[global] Instance Py_ret : MRet Py := λ A a sh, (Return a, sh).
#[global] Instance Py_bind : MBind Py := λ A B f m sh,
  match m sh with
  | (Return a, sh') => f a sh'
  | (Raise msg, sh') => (Raise msg, sh')
  end.

Definition lift {A} (o : outcome A) : Py A := λ sh, (o, sh).

(** [try: body  except Exception as e: handler(str(e))]. *)
Definition try_except {A} (body : Py A) (handler : string → Py A) : Py A :=
  λ sh,
    match body sh with
    | (Return a, sh') => (Return a, sh')
    | (Raise msg, sh') => handler msg sh'
    end.

Definition fault (f : option string) : Py unit :=
  λ sh, match f with
        | Some msg => (Raise msg, sh)
        | None => (Return (), sh)
        end.

Definition get_gsheet : Py unit := λ sh, fault (open_fault sh) sh.

Definition pad_row (n : nat) (cells : list value) : list value :=
  cells ++ replicate (n - length cells) (VStr "").

Definition records_of (sh : Sheet) : list row :=
  (λ cells, dict_zip (header sh)
              (pad_row (length (header sh)) (numericise <$> cells)))
    <$> rows sh.

Definition get_all_records : Py (list row) := λ sh,
  match read_fault sh with
  | Some msg => (Raise msg, sh)
  | None => (Return (records_of sh), sh)
  end.

(** The sheet with one more row at the end. *)
Definition appended (sh : Sheet) (cells : list value) : Sheet :=
  {| header := header sh; rows := rows sh ++ [cells];
     open_fault := open_fault sh; read_fault := read_fault sh;
     append_fault := append_fault sh |}.

Definition append_row (vals : list value) : Py unit := λ sh,
  match append_fault sh with
  | Some msg => (Raise msg, sh)
  | None => (Return (), appended sh vals)
  end.

(** ** Request and response shapes shared by both copies *)

Module OrderRequest.
Record t := {
  product_name : string;
  supplier : string;
  price : float;
  quantity : Z;
  purchase_date : string;
  staff_in_charge : string;
  approver : string;
}.
End OrderRequest.
Abbreviation OrderRequest := OrderRequest.t.

Module OrderHistoryItem.
Record t := {
  product_name : string;
  supplier : string;
  price : float;
  quantity : Z;
  purchase_date : string;
  staff_in_charge : string;
  approver : string;
  latest_price_change : string;
}.
End OrderHistoryItem.
Abbreviation OrderHistoryItem := OrderHistoryItem.t.

(** What an endpoint hands back: the response model (status 200) or the
    [JSONResponse] it builds itself. *)
Inductive http (A : Type) :=
  | Ok (body : A)
  | JSONResponse (status_code : Z) (content : gmap string string).
Arguments Ok {A} body.
Arguments JSONResponse {A} status_code content.

(** ** Validation of a history row

    Building an [OrderHistoryItem] from the keys of a row is pydantic's
    validation of the row against the field types, in its default (lax)
    mode: a [str] field takes a [str] only; a [float] field takes a number
    or a string that reads as one; an [int] field takes an [int], a [float]
    without fractional part or a string of digits; keys that name no field
    are ignored and [latest_price_change] defaults to the sentinel.  [None]
    stands for the [ValidationError], which the caller catches. *)

Module Pydantic.

Definition str_field (d : row) (key : string) : option string :=
  match d !! key with
  | Some (VStr s) => Some s
  | _ => None
  end.

Definition float_field (d : row) (key : string) : option float :=
  d !! key ≫= py_float.

(** The integer a float is, when it is one. *)
Definition float_integer (x : float) : option Z :=
  match Prim2SF x with
  | S754_zero _ => Some 0
  | S754_finite s m e =>
      if 0 <=? e then Some (cond_Zopp s (Zpos m * 2 ^ e))
      else if Zpos m mod 2 ^ (- e) =? 0
           then Some (cond_Zopp s (Zpos m / 2 ^ (- e)))
           else None
  | _ => None
  end.

Definition int_of_string (s : string) : option Z := PyInt.of_string s.

Definition int_field (d : row) (key : string) : option Z :=
  match d !! key with
  | Some (VInt z) => Some z
  | Some (VFloat x) => float_integer x
  | Some (VStr s) => int_of_string s
  | None => None
  end.

Definition optional_str_field (d : row) (key dflt : string) : option string :=
  match d !! key with
  | Some (VStr s) => Some s
  | Some _ => None
  | None => Some dflt
  end.

Definition OrderHistoryItem_of (d : row) : option OrderHistoryItem :=
  product_name ← str_field d "product_name";
  supplier ← str_field d "supplier";
  price ← float_field d "price";
  quantity ← int_field d "quantity";
  purchase_date ← str_field d "purchase_date";
  staff_in_charge ← str_field d "staff_in_charge";
  approver ← str_field d "approver";
  latest_price_change ← optional_str_field d "latest_price_change" "-";
  Some {| OrderHistoryItem.product_name := product_name;
          OrderHistoryItem.supplier := supplier;
          OrderHistoryItem.price := price;
          OrderHistoryItem.quantity := quantity;
          OrderHistoryItem.purchase_date := purchase_date;
          OrderHistoryItem.staff_in_charge := staff_in_charge;
          OrderHistoryItem.approver := approver;
          OrderHistoryItem.latest_price_change := latest_price_change |}.

End Pydantic.

(** ** [BE/app.py] *)

Module BE.

(** [latest_price_change] is declared optional with the sentinel as its
    default; [add_order] always passes a string. *)
Module OrderResponse.
Record t := {
  message : string;
  latest_price_change : string;
}.
End OrderResponse.
Abbreviation OrderResponse := OrderResponse.t.

Record OrderHistoryResponse := { orders : list OrderHistoryItem }.

(** The loop of [add_order] (lines 116-121), from the value of
    [previous_price] on entry.  The test of the [if] is outside the inner
    [try], so what it raises leaves the loop; what [float] raises is caught
    and resets [previous_price]. *)
Fixpoint previous_price_loop (order : OrderRequest) (records : list row)
    (previous_price : option float) : outcome (option float) :=
  match records with
  | [] => Return previous_price
  | r :: records' =>
      name ← py_strip (dict_get r "product_name" (VStr ""));
      if String.eqb (PyStr.lower name)
           (PyStr.lower (PyStr.strip (OrderRequest.product_name order)))
      then
        match py_float (dict_get r "price" (VInt 0)) with
        | Some x => previous_price_loop order records' (Some x)
        | None => previous_price_loop order records' None
        end
      else previous_price_loop order records' previous_price
  end.

(** Lines 111 and 122-125: the sentinel unless a previous price is there and
    the difference is not zero. *)
Definition price_change_of (order : OrderRequest)
    (previous_price : option float) : string :=
  match previous_price with
  | Some previous =>
      let price_change := (OrderRequest.price order - previous)%float in
      if negb (price_change =? 0)%float
      then PyFloat.to_string price_change
      else "-"
  | None => "-"
  end.

Definition add_order (order : OrderRequest) : Py (http OrderResponse) :=
  try_except
    (get_gsheet;;
     records ← get_all_records;
     previous_price ← lift (previous_price_loop order records None);
     let latest_price_change := price_change_of order previous_price in
     append_row [ VStr (OrderRequest.product_name order);
                  VStr (OrderRequest.supplier order);
                  VFloat (OrderRequest.price order);
                  VInt (OrderRequest.quantity order);
                  VStr (OrderRequest.purchase_date order);
                  VStr (OrderRequest.staff_in_charge order);
                  VStr (OrderRequest.approver order);
                  VStr latest_price_change ];;
     mret (Ok {| OrderResponse.message := "Order added successfully";
                 OrderResponse.latest_price_change := latest_price_change |}))
    (λ e, mret (JSONResponse 500
       {[ "detail" := "Error accessing Google Sheet: " +:+ e ]})).

(** The loop of [get_order_history] (lines 158-165) from the list [orders]
    built so far. *)
Fixpoint history_loop (records : list row) (orders : list OrderHistoryItem)
  : list OrderHistoryItem :=
  match records with
  | [] => orders
  | r :: records' =>
      let r :=
        match r !! "latest_price_change" with
        | Some v => <["latest_price_change" := VStr (py_str v)]> r
        | None => r
        end in
      match Pydantic.OrderHistoryItem_of r with
      | Some item => history_loop records' (orders ++ [item])
      | None => history_loop records' orders
      end
  end.

Definition get_order_history : Py (http OrderHistoryResponse) :=
  try_except
    (get_gsheet;;
     records ← get_all_records;
     mret (Ok {| orders := history_loop records [] |}))
    (λ e, mret (JSONResponse 500
       {[ "detail" := "Error accessing Google Sheet: " +:+ e ]})).

End BE.

(** ** [backup/BE_google_sheet/app.py]

    The second copy declares the same request and history shapes; its
    [OrderResponse] also carries the fields of the request. *)

Module Backup.

Module OrderResponse.
Record t := {
  message : string;
  product_name : string;
  supplier : string;
  price : float;
  quantity : Z;
  purchase_date : string;
  staff_in_charge : string;
  approver : string;
  latest_price_change : string;
}.
End OrderResponse.
Abbreviation OrderResponse := OrderResponse.t.

Record OrderHistoryResponse := { orders : list OrderHistoryItem }.

(** Lines 122-127. *)
Fixpoint previous_price_loop (order : OrderRequest) (records : list row)
    (previous_price : option float) : outcome (option float) :=
  match records with
  | [] => Return previous_price
  | r :: records' =>
      name ← py_strip (dict_get r "product_name" (VStr ""));
      if String.eqb (PyStr.lower name)
           (PyStr.lower (PyStr.strip (OrderRequest.product_name order)))
      then
        match py_float (dict_get r "price" (VInt 0)) with
        | Some x => previous_price_loop order records' (Some x)
        | None => previous_price_loop order records' None
        end
      else previous_price_loop order records' previous_price
  end.

(** Lines 117 and 128-131. *)
Definition price_change_of (order : OrderRequest)
    (previous_price : option float) : string :=
  match previous_price with
  | Some previous =>
      let price_change := (OrderRequest.price order - previous)%float in
      if negb (price_change =? 0)%float
      then PyFloat.to_string price_change
      else "-"
  | None => "-"
  end.

Definition add_order (order : OrderRequest) : Py (http OrderResponse) :=
  try_except
    (get_gsheet;;
     records ← get_all_records;
     previous_price ← lift (previous_price_loop order records None);
     let latest_price_change := price_change_of order previous_price in
     append_row [ VStr (OrderRequest.product_name order);
                  VStr (OrderRequest.supplier order);
                  VFloat (OrderRequest.price order);
                  VInt (OrderRequest.quantity order);
                  VStr (OrderRequest.purchase_date order);
                  VStr (OrderRequest.staff_in_charge order);
                  VStr (OrderRequest.approver order);
                  VStr latest_price_change ];;
     mret (Ok {|
       OrderResponse.message := "Order added successfully";
       OrderResponse.product_name := OrderRequest.product_name order;
       OrderResponse.supplier := OrderRequest.supplier order;
       OrderResponse.price := OrderRequest.price order;
       OrderResponse.quantity := OrderRequest.quantity order;
       OrderResponse.purchase_date := OrderRequest.purchase_date order;
       OrderResponse.staff_in_charge := OrderRequest.staff_in_charge order;
       OrderResponse.approver := OrderRequest.approver order;
       OrderResponse.latest_price_change := latest_price_change |}))
    (λ e, mret (JSONResponse 500
       {[ "detail" := "Error accessing Google Sheet: " +:+ e ]})).

(** Lines 175-182. *)
Fixpoint history_loop (records : list row) (orders : list OrderHistoryItem)
  : list OrderHistoryItem :=
  match records with
  | [] => orders
  | r :: records' =>
      let r :=
        match r !! "latest_price_change" with
        | Some v => <["latest_price_change" := VStr (py_str v)]> r
        | None => r
        end in
      match Pydantic.OrderHistoryItem_of r with
      | Some item => history_loop records' (orders ++ [item])
      | None => history_loop records' orders
      end
  end.

Definition get_order_history : Py (http OrderHistoryResponse) :=
  try_except
    (get_gsheet;;
     records ← get_all_records;
     mret (Ok {| orders := history_loop records [] |}))
    (λ e, mret (JSONResponse 500
       {[ "detail" := "Error accessing Google Sheet: " +:+ e ]})).

End Backup.

(** ** The ledger in the words of the specification *)

(** The body of the 500 response of both copies: the key [detail] bound
    to the fixed prefix followed by [str(e)]. *)
Definition error_content (msg : string) : gmap string string :=
  {[ "detail" := "Error accessing Google Sheet: " +:+ msg ]}.

(** The row of eight values that both copies append, in column order. *)
Definition order_row (order : OrderRequest) (latest_price_change : string)
  : list value :=
  [ VStr (OrderRequest.product_name order);
    VStr (OrderRequest.supplier order);
    VFloat (OrderRequest.price order);
    VInt (OrderRequest.quantity order);
    VStr (OrderRequest.purchase_date order);
    VStr (OrderRequest.staff_in_charge order);
    VStr (OrderRequest.approver order);
    VStr latest_price_change ].

(** A row whose [product_name] cell is text (or missing): the only rows
    the scan of [add_order] gets past. *)
Definition textual (r : row) : bool :=
  match dict_get r "product_name" (VStr "") with
  | VStr _ => true
  | _ => false
  end.

(** The row is for the product of the request: equal names under
    case-insensitive, trim-normalized comparison. *)
Definition same_product (order : OrderRequest) (r : row) : bool :=
  match dict_get r "product_name" (VStr "") with
  | VStr s =>
      String.eqb (PyStr.lower (PyStr.strip s))
        (PyStr.lower (PyStr.strip (OrderRequest.product_name order)))
  | _ => false
  end.

(** The price a row offers, if its price field parses; a row without the
    field offers what [float(0)] is. *)
Definition usable_price (r : row) : option float :=
  py_float (dict_get r "price" (VInt 0)).

(** The last row for the product, in store iteration order. *)
Definition last_matching (order : OrderRequest) (records : list row)
  : option row :=
  last (List.filter (same_product order) records).

(** The previous price as claim C1 words it: rows whose price does not
    parse are skipped, and the last parsable price among the matching rows
    is retained. *)
Definition retained_skipping_unparsable (order : OrderRequest)
    (records : list row) : option float :=
  last (omap usable_price (List.filter (same_product order) records)).

(** The previous price as the code retains it: the last matching row
    decides alone. *)
Definition retained_price (order : OrderRequest) (records : list row)
  : option float :=
  last_matching order records ≫= usable_price.




Fixpoint blank (s : string) : bool :=
  match s with
  | EmptyString => true
  | String c s' => PyStr.isspace c && blank s'
  end.



(** The row as [get_order_history] hands it to the validation: its
    [latest_price_change], when there, in string form. *)
Definition with_price_change_str (r : row) : row :=
  match r !! "latest_price_change" with
  | Some v => <["latest_price_change" := VStr (py_str v)]> r
  | None => r
  end.

(** The row maps onto the Order shape. *)
Definition parsed (r : row) : option OrderHistoryItem :=
  Pydantic.OrderHistoryItem_of (with_price_change_str r).

(** The store can be reached, read and appended to. *)
Definition reachable (sh : Sheet) : Prop :=
  open_fault sh = None ∧ read_fault sh = None.

Definition writable (sh : Sheet) : Prop :=
  reachable sh ∧ append_fault sh = None.

(** Fetching the rows raises an error with message [m]. *)
Definition fetch_raises (sh : Sheet) (m : string) : Prop :=
  open_fault sh = Some m ∨ (open_fault sh = None ∧ read_fault sh = Some m).

(** Accessing the store during [add_order] raises [m]: while fetching, or
    at the append that follows a scan that went through. *)
Definition create_raises (order : OrderRequest) (sh : Sheet) (m : string)
  : Prop :=
  fetch_raises sh m ∨
  (reachable sh ∧ Forall (λ r, textual r = true) (records_of sh) ∧
   append_fault sh = Some m).

(** The confirmation of a successful [add_order] of the first copy. *)
Definition confirmation (latest_price_change : string) : BE.OrderResponse :=
  {| BE.OrderResponse.message := "Order added successfully";
     BE.OrderResponse.latest_price_change := latest_price_change |}.

(** The response of the richer copy without the fields it echoes. *)
Definition without_echo (r : Backup.OrderResponse) : BE.OrderResponse :=
  {| BE.OrderResponse.message := Backup.OrderResponse.message r;
     BE.OrderResponse.latest_price_change :=
       Backup.OrderResponse.latest_price_change r |}.

Definition http_map {A B} (f : A → B) (r : http A) : http B :=
  match r with
  | Ok body => Ok (f body)
  | JSONResponse status_code content => JSONResponse status_code content
  end.

Definition outcome_map {A B} (f : A → B) (o : outcome A) : outcome B :=
  match o with
  | Return a => Return (f a)
  | Raise msg => Raise msg
  end.

(** The response echoes the request. *)
Definition echoes (order : OrderRequest) (r : Backup.OrderResponse) : Prop :=
  Backup.OrderResponse.product_name r = OrderRequest.product_name order ∧
  Backup.OrderResponse.supplier r = OrderRequest.supplier order ∧
  Backup.OrderResponse.price r = OrderRequest.price order ∧
  Backup.OrderResponse.quantity r = OrderRequest.quantity order ∧
  Backup.OrderResponse.purchase_date r = OrderRequest.purchase_date order ∧
  Backup.OrderResponse.staff_in_charge r
    = OrderRequest.staff_in_charge order ∧
  Backup.OrderResponse.approver r = OrderRequest.approver order.

(** CreateOrder calls applied one after another, each on the store the
    previous one left. *)
Fixpoint create_orders (orders : list OrderRequest) (sh : Sheet)
  : list (outcome (http BE.OrderResponse)) * Sheet :=
  match orders with
  | [] => ([], sh)
  | order :: orders' =>
      let '(resp, sh') := BE.add_order order sh in
      let '(resps, sh'') := create_orders orders' sh' in
      (resp :: resps, sh'')
  end.

(** Submitted prices go strictly up from each call to the next. *)
Fixpoint increasing_prices (orders : list OrderRequest) : Prop :=
  match orders with
  | a :: (b :: _) as orders' =>
      (OrderRequest.price a <? OrderRequest.price b)%float = true
      ∧ increasing_prices orders'
  | _ => True
  end.

(** All calls are for the product [name]. *)
Definition for_product (name : string) (orders : list OrderRequest) : Prop :=
  Forall (λ o, PyStr.lower (PyStr.strip (OrderRequest.product_name o))
               = PyStr.lower (PyStr.strip name)) orders.

(** The column names in the order [add_order] writes the cells. *)
Definition order_columns : list string :=
  [ "product_name"; "supplier"; "price"; "quantity"; "purchase_date";
    "staff_in_charge"; "approver"; "latest_price_change" ].

(** A string shows that it is a number or a float keyword. *)
Fixpoint has_mark (s : string) : bool :=
  match s with
  | EmptyString => false
  | String c s' =>
      Ascii.eqb c "." || Ascii.eqb c "e" || Ascii.eqb c "n" || has_mark s'
  end.

(** ** Running the service on small stores *)

Definition sheet_of (cells : list (list value)) : Sheet :=
  {| header := order_columns; rows := cells;
     open_fault := None; read_fault := None; append_fault := None |}.

Definition widget (name : string) (price : float) : OrderRequest :=
  {| OrderRequest.product_name := name; OrderRequest.supplier := "Acme";
     OrderRequest.price := price; OrderRequest.quantity := 4;
     OrderRequest.purchase_date := "2025-01-31";
     OrderRequest.staff_in_charge := "Dana"; OrderRequest.approver := "Lee" |}.

Definition widget_row (name : string) (price : value) : list value :=
  [ VStr name; VStr "Acme"; price; VInt 4; VStr "2025-01-31"; VStr "Dana";
    VStr "Lee"; VStr "-" ].

Definition widget_sheet : Sheet :=
  sheet_of [ widget_row "Widget" (VFloat 10); widget_row "Gadget" (VInt 7);
             widget_row "widget " (VFloat 12) ].

(** Two rows for the product, the later one with a price that is no
    number. *)
Definition broken_price_sheet : Sheet :=
  sheet_of [ widget_row "Widget" (VFloat 10); widget_row "Widget" (VStr "abc") ].

(** The previous price and the condition for the sentinel as claim C2 words
    them: no matching row with a parsable price, or the retained price
    equal to the submitted one. *)
Definition sentinel_condition_claimed (order : OrderRequest)
    (records : list row) : Prop :=
  retained_skipping_unparsable order records = None ∨
  ∃ p, retained_skipping_unparsable order records = Some p ∧
       (p =? OrderRequest.price order)%float = true.

(** A ledger that every call of a run can use: the store answers, its
    header names the columns in the order [add_order] writes them, and the
    names in the rows already there are text. *)
Definition ledger_ready (sh : Sheet) : Prop :=
  writable sh ∧ header sh = order_columns ∧
  Forall (λ r, textual r = true) (records_of sh).

(** The record that a row written by [add_order] reads back as. *)
Definition order_record (order : OrderRequest) (latest_price_change : string)
  : row :=
  dict_zip order_columns
    (pad_row (length order_columns)
       (numericise <$> order_row order latest_price_change)).

(** A text that does not look numeric: it is read back as the text it
    is. *)
Definition reads_as_text (s : string) : Prop :=
  numericise (VStr s) = VStr s.

(** The text fields of an order other than its product name. *)
Definition plain_text_fields (order : OrderRequest) : Prop :=
  reads_as_text (OrderRequest.supplier order)
  ∧ reads_as_text (OrderRequest.purchase_date order)
  ∧ reads_as_text (OrderRequest.staff_in_charge order)
  ∧ reads_as_text (OrderRequest.approver order).

Definition three_orders : list OrderRequest :=
  [ widget "Widget" 10; widget "widget " 12; widget " WIDGET" 15.5 ].

(** A history with one row that does not map onto the Order shape (its
    quantity is no number) and one whose price change reads as a number. *)
Definition mixed_sheet : Sheet :=
  sheet_of
    [ widget_row "Widget" (VFloat 10);
      [ VStr "Gadget"; VStr "Acme"; VInt 7; VStr "many"; VStr "2025-02-01";
        VStr "Dana"; VStr "Lee"; VStr "-" ];
      [ VStr "Widget"; VStr "Acme"; VFloat 12.5; VInt 1; VStr "2025-02-02";
        VStr "Dana"; VStr "Lee"; VFloat 2.5 ] ].

(** Stores that fail: when opened, and at the append only. *)
Definition unreachable_sheet : Sheet :=
  {| header := order_columns; rows := [ widget_row "Widget" (VFloat 10) ];
     open_fault := Some "connection refused"; read_fault := None;
     append_fault := None |}.

Definition read_only_sheet : Sheet :=
  {| header := order_columns; rows := [ widget_row "Widget" (VFloat 10) ];
     open_fault := None; read_fault := None;
     append_fault := Some "quota exceeded" |}.

(** A sheet without a price column. *)
Definition no_price_sheet : Sheet :=
  {| header := [ "product_name"; "supplier" ];
     rows := [ [ VStr "Widget"; VStr "Acme" ] ];
     open_fault := None; read_fault := None; append_fault := None |}.

(** The confirmation of a successful [add_order] of the second copy. *)
Definition full_confirmation (order : OrderRequest)
    (latest_price_change : string) : Backup.OrderResponse :=
  {| Backup.OrderResponse.message := "Order added successfully";
     Backup.OrderResponse.product_name := OrderRequest.product_name order;
     Backup.OrderResponse.supplier := OrderRequest.supplier order;
     Backup.OrderResponse.price := OrderRequest.price order;
     Backup.OrderResponse.quantity := OrderRequest.quantity order;
     Backup.OrderResponse.purchase_date := OrderRequest.purchase_date order;
     Backup.OrderResponse.staff_in_charge :=
       OrderRequest.staff_in_charge order;
     Backup.OrderResponse.approver := OrderRequest.approver order;
     Backup.OrderResponse.latest_price_change := latest_price_change |}.


(** ** The OpenAPI document ([custom_openapi], lines 23-41)

    The application object keeps the document it serves in
    [app.openapi_schema], [None] until the first request for it.  The
    generator [get_openapi] belongs to the web framework and is taken as a
    parameter, as is the type of the route table it reads. *)

Unset Elimination Schemes.
Inductive json :=
  | JString (s : string)
  | JArray (items : list json)
  | JObject (fields : list (string * json)).
Set Elimination Schemes.

Module OpenAPI.
Section WithFramework.

Variable routes_t : Type.
Variable get_openapi : string → string → string → routes_t → gmap string json.

Record FastAPI := {
  title : string;
  version : string;
  description : string;
  routes : routes_t;
  openapi_schema : option (gmap string json);
}.

(** The truth value of [app.openapi_schema]: [None] and the empty [dict]
    are false. *)
Definition truthy (schema : option (gmap string json)) : bool :=
  match schema with
  | Some d => negb (size d =? 0)%nat
  | None => false
  end.

Definition production_servers : json :=
  JArray
    [ JObject
        [ ("url",
           JString "https://be-procurement-agent.1zy07nqib9k1.us-south.codeengine.appdomain.cloud");
          ("description", JString "Production server") ] ].

Definition custom_openapi (app : FastAPI) : gmap string json * FastAPI :=
  if truthy (openapi_schema app)
  then (default ∅ (openapi_schema app), app)
  else
    let schema :=
      get_openapi (title app) (version app) (description app) (routes app) in
    let schema := <["servers" := production_servers]> schema in
    (schema,
     {| title := title app; version := version app;
        description := description app; routes := routes app;
        openapi_schema := Some schema |}).

End WithFramework.

Arguments title {routes_t} _.
Arguments version {routes_t} _.
Arguments description {routes_t} _.
Arguments routes {routes_t} _.
Arguments openapi_schema {routes_t} _.
Arguments custom_openapi {routes_t} get_openapi app.

End OpenAPI.

(** ** The endpoints with their credentials check and console output

    [get_gsheet] (lines 48-63) reads the path of the service account file
    from the process environment and asks the file system for it before it
    talks to the spreadsheet client; it prints what it raises.  The
    endpoints print what they catch. *)

Record Environment := {
  GOOGLE_APPLICATION_CREDENTIALS : option string;   (* [os.getenv] *)
  existing_paths : list string;                     (* [os.path.exists] *)
}.

Record World := {
  environment : Environment;
  sheet : Sheet;
  stdout : list string;
}.

Definition PyIO (A : Type) : Type := World → outcome A * World.

#[global] Instance PyIO_ret : MRet PyIO := λ A a w, (Return a, w).
#[global] Instance PyIO_bind : MBind PyIO := λ A B f m w,
  match m w with
  | (Return a, w') => f a w'
  | (Raise msg, w') => (Raise msg, w')
  end.

Definition raise {A} (msg : string) : PyIO A := λ w, (Raise msg, w).

Definition print (line : string) : PyIO unit := λ w,
  (Return (),
   {| environment := environment w; sheet := sheet w;
      stdout := stdout w ++ [line] |}).

(** Code that only touches the sheet, run in the world. *)
Definition on_sheet {A} (m : Py A) : PyIO A := λ w,
  let '(o, sh) := m (sheet w) in
  (o, {| environment := environment w; sheet := sh; stdout := stdout w |}).

Definition try_except_io {A} (body : PyIO A) (handler : string → PyIO A)
  : PyIO A :=
  λ w,
    match body w with
    | (Return a, w') => (Return a, w')
    | (Raise msg, w') => handler msg w'
    end.

Definition getenv_credentials : PyIO (option string) := λ w,
  (Return (GOOGLE_APPLICATION_CREDENTIALS (environment w)), w).

Definition path_exists (path : string) : PyIO bool := λ w,
  (Return (bool_decide (path ∈ existing_paths (environment w))), w).

(** An optional string inside an f-string. *)
Definition format_optional (o : option string) : string :=
  match o with
  | Some s => s
  | None => "None"
  end.

Module Logged.

(** Lines 48-63.  The calls to the client after the check (credentials
    from the file, [authorize], [open_by_key], [worksheet]) are the access
    to the sheet that may fail with [open_fault]. *)
Definition get_gsheet : PyIO unit :=
  try_except_io
    (creds_path ← getenv_credentials;
     usable ←
       match creds_path with
       | None => mret false
       | Some EmptyString => mret false
       | Some path => path_exists path
       end;
     if negb usable
     then raise ("Service account credentials file not found at "
                 +:+ format_optional creds_path)
     else on_sheet get_gsheet)
    (λ e, print ("[ERROR] Google Sheets access failed: " +:+ e);; raise e).

(** Lines 105-140. *)
Definition add_order (order : OrderRequest) : PyIO (http BE.OrderResponse) :=
  try_except_io
    (get_gsheet;;
     records ← on_sheet get_all_records;
     previous_price ←
       on_sheet (lift (BE.previous_price_loop order records None));
     let latest_price_change := BE.price_change_of order previous_price in
     on_sheet
       (append_row [ VStr (OrderRequest.product_name order);
                     VStr (OrderRequest.supplier order);
                     VFloat (OrderRequest.price order);
                     VInt (OrderRequest.quantity order);
                     VStr (OrderRequest.purchase_date order);
                     VStr (OrderRequest.staff_in_charge order);
                     VStr (OrderRequest.approver order);
                     VStr latest_price_change ]);;
     mret (Ok {| BE.OrderResponse.message := "Order added successfully";
                 BE.OrderResponse.latest_price_change :=
                   latest_price_change |}))
    (λ e, print ("[ERROR] Failed to add order: " +:+ e);;
          mret (JSONResponse 500
                  {[ "detail" := "Error accessing Google Sheet: " +:+ e ]})).

Section RowErrors.

(** How a row and the validation error it caused are written into the
    f-string of line 165: Python's [repr] of the dictionary and pydantic's
    error text, both outside the repository. *)
Variable repr_row : row → string.
Variable error_text : row → string.

Definition parse_error_line (r : row) : string :=
  "[ERROR] Failed to parse row: " +:+ repr_row r
  +:+ ", error: " +:+ error_text r.

(** Lines 158-165. *)
Fixpoint history_loop (records : list row) (orders : list OrderHistoryItem)
  : PyIO (list OrderHistoryItem) :=
  match records with
  | [] => mret orders
  | r :: records' =>
      let r :=
        match r !! "latest_price_change" with
        | Some v => <["latest_price_change" := VStr (py_str v)]> r
        | None => r
        end in
      match Pydantic.OrderHistoryItem_of r with
      | Some item => history_loop records' (orders ++ [item])
      | None => print (parse_error_line r);; history_loop records' orders
      end
  end.

(** Lines 149-170. *)
Definition get_order_history : PyIO (http BE.OrderHistoryResponse) :=
  try_except_io
    (get_gsheet;;
     records ← on_sheet get_all_records;
     orders ← history_loop records [];
     mret (Ok {| BE.orders := orders |}))
    (λ e, print ("[ERROR] Failed to fetch order history: " +:+ e);;
          mret (JSONResponse 500
                  {[ "detail" := "Error accessing Google Sheet: " +:+ e ]})).

End RowErrors.

End Logged.

(** The message with which the credentials check of [get_gsheet] fails,
    if it does. *)
Definition credentials_fault (env : Environment) : option string :=
  match GOOGLE_APPLICATION_CREDENTIALS env with
  | None => Some "Service account credentials file not found at None"
  | Some path =>
      if bool_decide (path ≠ "" ∧ path ∈ existing_paths env) then None
      else Some ("Service account credentials file not found at " +:+ path)
  end.

(** The sheet as an endpoint finds it in a world: opening it fails when
    the credentials check does, and else when the client does. *)
Definition effective_sheet (w : World) : Sheet :=
  {| header := header (sheet w); rows := rows (sheet w);
     open_fault :=
       match credentials_fault (environment w) with
       | Some m => Some m
       | None => open_fault (sheet w)
       end;
     read_fault := read_fault (sheet w);
     append_fault := append_fault (sheet w) |}.

(** The lines that [get_order_history] prints for the fetched rows: one
    for each row that does not map onto the Order shape, showing the row
    with its price change cell already in string form. *)
Definition parse_error_lines (repr_row error_text : row → string)
    (records : list row) : list string :=
  omap (λ r, match parsed r with
             | Some _ => None
             | None =>
                 Some (Logged.parse_error_line repr_row error_text
                         (with_price_change_str r))
             end) records.

(** The line [get_gsheet] prints for an error with message [m]. *)
Definition gsheet_line (m : string) : string :=
  "[ERROR] Google Sheets access failed: " +:+ m.

Definition printed (w : World) (lines : list string) : World :=
  {| environment := environment w; sheet := sheet w;
     stdout := stdout w ++ lines |}.

Definition with_sheet (w : World) (sh : Sheet) : World :=
  {| environment := environment w; sheet := sh; stdout := stdout w |}.

(** The history item that a row written by [add_order] is read as. *)
Definition order_item (order : OrderRequest) (latest_price_change : string)
  : OrderHistoryItem :=
  {| OrderHistoryItem.product_name := OrderRequest.product_name order;
     OrderHistoryItem.supplier := OrderRequest.supplier order;
     OrderHistoryItem.price := OrderRequest.price order;
     OrderHistoryItem.quantity := OrderRequest.quantity order;
     OrderHistoryItem.purchase_date := OrderRequest.purchase_date order;
     OrderHistoryItem.staff_in_charge := OrderRequest.staff_in_charge order;
     OrderHistoryItem.approver := OrderRequest.approver order;
     OrderHistoryItem.latest_price_change := latest_price_change |}.

(** Worlds for the examples: no credentials variable, and a credentials
    file that is there. *)
Definition no_credentials_world : World :=
  {| environment := {| GOOGLE_APPLICATION_CREDENTIALS := None;
                       existing_paths := [] |};
     sheet := widget_sheet; stdout := [] |}.

Definition working_world (sh : Sheet) : World :=
  {| environment := {| GOOGLE_APPLICATION_CREDENTIALS := Some "/app/key.json";
                       existing_paths := [ "/app/key.json" ] |};
     sheet := sh; stdout := [] |}.

(** A generator for the examples: a document with one key. *)
Definition sample_get_openapi (title version description : string)
    (routes : list string) : gmap string json :=
  {[ "info" := JObject [ ("title", JString title);
                         ("version", JString version) ] ]}.

(** The application object as the module creates it (lines 15-20), over a
    route table given as a list of paths. *)
Definition fresh_app : OpenAPI.FastAPI (list string) :=
  {| OpenAPI.title := "Retail Procurement API";
     OpenAPI.version := "1.0.0";
     OpenAPI.description := "Retail procurement management API for submitting and viewing purchase orders, tracking price changes, and managing staff approvals. Compatible with Watsonx Orchestrate and Swagger UI.";
     OpenAPI.routes := [ "/orders" ];
     OpenAPI.openapi_schema := None |}.

(** A sheet whose header spells the name column differently. *)
Definition renamed_column_sheet : Sheet :=
  {| header := [ "Product Name"; "supplier"; "price" ];
     rows := [ [ VStr "Widget"; VStr "Acme"; VFloat 10 ] ];
     open_fault := None; read_fault := None; append_fault := None |}.

(** The message of the [AttributeError] that the first row with a name
    that is no text raises in the scan of [add_order]. *)
Fixpoint first_name_error (records : list row) : option string :=
  match records with
  | [] => None
  | r :: records' =>
      match py_strip (dict_get r "product_name" (VStr "")) with
      | Raise msg => Some msg
      | Return _ => first_name_error records'
      end
  end.

(** [math.isfinite]: neither an infinity nor a NaN. *)
Definition isfinite (x : float) : bool :=
  match Prim2SF x with
  | S754_zero _ | S754_finite _ _ _ => true
  | _ => false
  end.

(** The seven required fields of a row map onto the Order shape. *)
Definition required_fields_ok (r : row) : bool :=
  bool_decide (is_Some (Pydantic.str_field r "product_name"))
  && bool_decide (is_Some (Pydantic.str_field r "supplier"))
  && bool_decide (is_Some (Pydantic.float_field r "price"))
  && bool_decide (is_Some (Pydantic.int_field r "quantity"))
  && bool_decide (is_Some (Pydantic.str_field r "purchase_date"))
  && bool_decide (is_Some (Pydantic.str_field r "staff_in_charge"))
  && bool_decide (is_Some (Pydantic.str_field r "approver")).

(** * Lemmas *)

(** ** Rounding in binary64

    [SFsub] rounds an exact integer difference; the lemmas below show that
    rounding a positive difference of two valid numbers gives a positive
    number. *)

Lemma digits2_pos_bounds (m : positive) :
  2 ^ (Zpos (digits2_pos m) - 1) <= Zpos m < 2 ^ Zpos (digits2_pos m).
Proof.
  induction m as [m IH|m IH|]; simpl digits2_pos.
  - rewrite Pos2Z.inj_succ.
    replace (Z.succ (Zpos (digits2_pos m)) - 1)
      with (Z.succ (Zpos (digits2_pos m) - 1)) by lia.
    rewrite !Z.pow_succ_r by lia. lia.
  - rewrite Pos2Z.inj_succ.
    replace (Z.succ (Zpos (digits2_pos m)) - 1)
      with (Z.succ (Zpos (digits2_pos m) - 1)) by lia.
    rewrite !Z.pow_succ_r by lia. lia.
  - simpl. lia.
Qed.

Lemma shr_1_m (mrs : shr_record) :
  0 <= shr_m mrs → shr_m (shr_1 mrs) = shr_m mrs / 2.
Proof.
  destruct mrs as [m r s]. simpl. intros Hm.
  destruct m as [|[p|p|]|p]; simpl; try lia; try reflexivity.
  - apply Z.div_unique with 1; lia.
  - apply Z.div_unique with 0; lia.
Qed.

Lemma pow2_xI (p : positive) : 2 ^ Zpos p~1 = 2 * 2 ^ Zpos p * 2 ^ Zpos p.
Proof.
  rewrite (Pos2Z.inj_xI p).
  replace (2 * Zpos p + 1) with (1 + Zpos p + Zpos p) by lia.
  by rewrite !Z.pow_add_r by lia.
Qed.

Lemma pow2_xO (p : positive) : 2 ^ Zpos p~0 = 2 ^ Zpos p * 2 ^ Zpos p.
Proof.
  rewrite (Pos2Z.inj_xO p).
  replace (2 * Zpos p) with (Zpos p + Zpos p) by lia.
  by rewrite Z.pow_add_r by lia.
Qed.

Lemma iter_shr_1_m (p : positive) : ∀ mrs,
  0 <= shr_m mrs →
  shr_m (SpecFloat.iter_pos shr_1 p mrs) = shr_m mrs / 2 ^ Zpos p.
Proof.
  induction p as [p IH|p IH|]; intros mrs Hm; simpl SpecFloat.iter_pos.
  - assert (H1 : 0 <= shr_m (shr_1 mrs)).
    { rewrite shr_1_m by done. apply Z.div_pos; lia. }
    assert (H2 : 0 <= shr_m (SpecFloat.iter_pos shr_1 p (shr_1 mrs))).
    { rewrite IH by done. apply Z.div_pos; lia. }
    rewrite IH, IH, shr_1_m by done.
    rewrite !Z.div_div by lia. rewrite pow2_xI. f_equal. lia.
  - assert (H2 : 0 <= shr_m (SpecFloat.iter_pos shr_1 p mrs)).
    { rewrite IH by done. apply Z.div_pos; lia. }
    rewrite IH, IH by done.
    rewrite !Z.div_div by lia. by rewrite pow2_xO.
  - by rewrite shr_1_m.
Qed.

Lemma shr_record_of_loc_m m l : shr_m (shr_record_of_loc m l) = m.
Proof. by destruct l as [|[]]. Qed.

(** Shifting a positive mantissa down to the format's exponent never
    loses all of it, as long as the exponent is not below [emin]. *)
Lemma shr_fexp_pos (m e : Z) (l : location) :
  0 < m → emin <= e →
  0 < shr_m (shr_fexp prec emax m e l).1 ∧ emin <= (shr_fexp prec emax m e l).2.
Proof.
  intros Hm He. destruct m as [|m|m]; try lia.
  unfold shr_fexp, shr. simpl Zdigits2.
  pose proof (digits2_pos_bounds m) as [Hlo Hhi].
  set (d := Zpos (digits2_pos m)) in *.
  destruct (fexp prec emax (d + e) - e) as [|n|n] eqn:Hn; simpl;
    rewrite ?shr_record_of_loc_m; try (split; lia).
  rewrite iter_shr_1_m by (rewrite shr_record_of_loc_m; lia).
  rewrite shr_record_of_loc_m.
  assert (Hnd : Zpos n <= d - 1).
  { unfold fexp, SpecFloat.emin, prec, emax in *. lia. }
  split; [|lia].
  apply Z.div_str_pos. split; [lia|].
  etrans; [|exact Hlo]. apply Z.pow_le_mono_r; lia.
Qed.

Lemma round_nearest_even_pos m l : 0 < m → 0 < round_nearest_even m l.
Proof. intros. destruct l as [|[]]; simpl; try lia. destruct (Z.even m); lia. Qed.

Lemma binary_round_aux_pos (m e : Z) (l : location) :
  0 < m → emin <= e →
  SFltb (S754_zero false) (binary_round_aux prec emax false m e l) = true.
Proof.
  intros Hm He. unfold binary_round_aux.
  pose proof (shr_fexp_pos m e l Hm He) as [H1 H2].
  destruct (shr_fexp prec emax m e l) as [mrs' e']. simpl in H1, H2.
  pose proof (shr_fexp_pos _ e' loc_Exact
                (round_nearest_even_pos _ (loc_of_shr_record mrs') H1) H2)
    as [H3 _].
  destruct (shr_fexp prec emax _ e' loc_Exact) as [mrs'' e'']. simpl in H3.
  destruct (shr_m mrs'') as [|p|p]; try lia.
  by destruct (e'' <=? emax - prec).
Qed.

Lemma shl_align_exponent m e e' :
  emin <= e → emin <= e' → emin <= (shl_align m e e').2.
Proof. intros. unfold shl_align. by destruct (e' - e). Qed.

Lemma binary_round_pos (m : positive) (e : Z) :
  emin <= e →
  SFltb (S754_zero false) (binary_round prec emax false m e) = true.
Proof.
  intros He. unfold binary_round.
  pose proof (shl_align_exponent m e (fexp prec emax (Zpos (digits2_pos m) + e)) He) as H.
  destruct (shl_align m e _) as [mz ez]. simpl in H.
  apply binary_round_aux_pos; [done|]. apply H.
  unfold fexp, SpecFloat.emin, prec, emax. lia.
Qed.

Lemma iter_xO_value (m d : positive) :
  Zpos (Pos.iter xO m d) = Zpos m * 2 ^ Zpos d.
Proof.
  induction d as [|d IH] using Pos.peano_ind.
  - simpl. lia.
  - rewrite Pos.iter_succ, Pos2Z.inj_xO, IH, Pos2Z.inj_succ.
    rewrite Z.pow_succ_r by lia. lia.
Qed.

Lemma shl_align_value (m : positive) (e ez : Z) :
  ez <= e → Zpos (shl_align m e ez).1 = Zpos m * 2 ^ (e - ez).
Proof.
  intros He. unfold shl_align.
  destruct (ez - e) as [|d|d] eqn:Hd; simpl; try lia.
  - replace (e - ez) with 0 by lia. lia.
  - rewrite iter_xO_value. f_equal. f_equal. lia.
Qed.

(** What validity says about a finite number's mantissa and exponent. *)
Lemma bounded_inv (m : positive) (e : Z) :
  bounded prec emax m e = true →
  emin <= e ∧ Zpos m < 2 ^ prec ∧ (emin < e → 2 ^ (prec - 1) <= Zpos m).
Proof.
  unfold bounded, canonical_mantissa. intros [Hc _]%andb_prop.
  apply Z.eqb_eq in Hc.
  pose proof (digits2_pos_bounds m) as [Hlo Hhi].
  set (d := Zpos (digits2_pos m)) in *.
  unfold fexp, SpecFloat.emin in *. repeat split.
  - lia.
  - eapply Z.lt_le_trans; [exact Hhi|]. apply Z.pow_le_mono_r; lia.
  - intros He. replace d with prec in Hlo by lia. done.
Qed.

Lemma aligned_lt (m1 m2 : positive) (e1 e2 : Z) :
  bounded prec emax m1 e1 = true → bounded prec emax m2 e2 = true →
  e1 < e2 →
  Zpos m1 * 2 ^ (e1 - Z.min e1 e2) < Zpos m2 * 2 ^ (e2 - Z.min e1 e2).
Proof.
  intros (He1 & Hm1 & _)%bounded_inv (_ & _ & Hm2)%bounded_inv Hlt.
  rewrite Z.min_l, Z.sub_diag by lia. simpl (2 ^ 0).
  assert (H2 : 2 ^ 1 <= 2 ^ (e2 - e1)) by (apply Z.pow_le_mono_r; lia).
  assert (Hp : 2 ^ prec = 2 * 2 ^ (prec - 1)) by done.
  specialize (Hm2 ltac:(lia)). simpl (2 ^ 1) in H2. nia.
Qed.

(** The exact difference that [SFsub y x] rounds is positive when
    [x < y]. *)
Lemma aligned_difference_pos sx mx ex sy my ey :
  bounded prec emax mx ex = true → bounded prec emax my ey = true →
  SFcompare (S754_finite sx mx ex) (S754_finite sy my ey) = Some Lt →
  0 < cond_Zopp sy (Zpos (shl_align my ey (Z.min ey ex)).1)
      - cond_Zopp sx (Zpos (shl_align mx ex (Z.min ey ex)).1).
Proof.
  intros Hx Hy Hc. rewrite !shl_align_value by lia.
  pose proof (aligned_lt mx my ex ey Hx Hy) as Hxy.
  pose proof (aligned_lt my mx ey ex Hy Hx) as Hyx.
  rewrite (Z.min_comm ex ey) in Hxy.
  assert (Hpx : 0 < 2 ^ (ex - Z.min ey ex)) by (apply Z.pow_pos_nonneg; lia).
  assert (Hpy : 0 < 2 ^ (ey - Z.min ey ex)) by (apply Z.pow_pos_nonneg; lia).
  simpl in Hc. destruct sx, sy; simpl cond_Zopp; try done; try nia.
  - destruct (Z.compare_spec ex ey) as [->|?|?]; try done; [|lia].
    assert ((my ?= mx)%positive = Lt) as Hm.
    { rewrite Pos.compare_antisym. unfold Pos.compare.
      by destruct (Pos.compare_cont Eq mx my). }
    apply Pos2Z.pos_lt_pos in Hm.
    rewrite Z.min_id, Z.sub_diag, Z.pow_0_r. lia.
  - destruct (Z.compare_spec ex ey) as [->|?|?]; try done; [|lia].
    assert ((mx ?= my)%positive = Lt) as Hm.
    { unfold Pos.compare. by destruct (Pos.compare_cont Eq mx my). }
    apply Pos2Z.pos_lt_pos in Hm.
    rewrite Z.min_id, Z.sub_diag, Z.pow_0_r. lia.
Qed.

Lemma SFsub_lt_pos (x y : spec_float) :
  valid_binary x = true → valid_binary y = true →
  SFltb x y = true →
  SFltb (S754_zero false) (SFsub prec emax y x) = true.
Proof.
  unfold SFltb. intros Hx Hy Hlt.
  destruct (SFcompare x y) as [[]|] eqn:Hc; try done. clear Hlt.
  destruct x as [sx|sx| |sx mx ex], y as [sy|sy| |sy my ey];
    try done; try (by destruct sx, sy); try (by destruct sx);
    try (by destruct sy).
  simpl in Hx, Hy.
  pose proof (aligned_difference_pos _ _ _ _ _ _ Hx Hy Hc) as Hd.
  unfold SFsub. cbv zeta.
  destruct (_ - _) as [|d|d]; try lia.
  apply binary_round_pos.
  apply bounded_inv in Hx as [? _], Hy as [? _]. lia.
Qed.

(** ** Facts about Python float arithmetic *)

Lemma Prim2SF_zero : Prim2SF 0 = S754_zero false.
Proof. reflexivity. Qed.

(** [a < b] makes [b - a] positive: no underflow to zero. *)
Lemma float_sub_pos (a b : float) :
  (a <? b)%float = true → (0 <? b - a)%float = true.
Proof.
  intros Hlt. rewrite FloatAxioms.ltb_spec in Hlt.
  rewrite FloatAxioms.ltb_spec, FloatAxioms.sub_spec, Prim2SF_zero.
  by apply SFsub_lt_pos; try apply Prim2SF_valid.
Qed.

Lemma float_pos_ne_zero (x : float) :
  (0 <? x)%float = true → (x =? 0)%float = false.
Proof.
  intros Hlt. rewrite FloatAxioms.ltb_spec, Prim2SF_zero in Hlt.
  rewrite FloatAxioms.eqb_spec, Prim2SF_zero. revert Hlt. unfold SFltb, SFeqb.
  by destruct (Prim2SF x) as [[]|[]| |[]].
Qed.

(** [x - 0.0] is [x], for every float. *)
Lemma float_sub_zero (x : float) : (x - 0)%float = x.
Proof.
  apply Prim2SF_inj. rewrite FloatAxioms.sub_spec, Prim2SF_zero.
  by destruct (Prim2SF x) as [[]|[]| |].
Qed.


(** ** Strings *)











Lemma lstrip_all_blank (r : string) : blank r = true → PyStr.lstrip r = "".
Proof.
  induction r as [|c r IH]; [done|]. simpl.
  intros [-> Hr]%andb_prop. auto.
Qed.



(** ** [str] of a float is never the sentinel *)

Lemma has_mark_app (a b : string) :
  has_mark (a +:+ b) = has_mark a || has_mark b.
Proof.
  induction a as [|c a IH]; [done|]. simpl. rewrite IH.
  by rewrite !orb_assoc.
Qed.

Lemma format_digits_mark (ds : string) (k : Z) :
  has_mark (PyFloat.format_digits ds k) = true.
Proof.
  unfold PyFloat.format_digits.
  repeat case_match; rewrite ?has_mark_app; simpl;
    rewrite ?orb_true_r; done.
Qed.

Lemma to_string_mark (x : float) : has_mark (PyFloat.to_string x) = true.
Proof.
  unfold PyFloat.to_string.
  destruct (Prim2SF x) as [[]|[]| |s m e]; try done.
  destruct (PyFloat.shortest _ _ _ _ _) as [d k].
  by rewrite has_mark_app, format_digits_mark, orb_true_r.
Qed.

Lemma to_string_not_sentinel (x : float) : PyFloat.to_string x ≠ "-".
Proof.
  intros H. pose proof (to_string_mark x) as Hm. by rewrite H in Hm.
Qed.

(** ** The scan of [add_order] *)

Lemma last_matching_cons (order : OrderRequest) (r : row) (records : list row) :
  last_matching order (r :: records) =
    match last_matching order records with
    | Some r' => Some r'
    | None => if same_product order r then Some r else None
    end.
Proof.
  unfold last_matching. simpl.
  destruct (same_product order r); [|by destruct (last _)].
  by rewrite last_cons.
Qed.

Lemma last_matching_snoc (order : OrderRequest) (r : row) (records : list row) :
  same_product order r = true →
  last_matching order (records ++ [r]) = Some r.
Proof.
  intros Hr. unfold last_matching.
  rewrite List.filter_app. simpl. rewrite Hr. apply last_snoc.
Qed.

(** On rows with textual names the scan returns, and what it returns is
    decided by the last matching row alone. *)
Lemma previous_price_loop_textual (order : OrderRequest) (records : list row) :
  ∀ previous_price,
  Forall (λ r, textual r = true) records →
  BE.previous_price_loop order records previous_price =
    Return match last_matching order records with
           | Some r => usable_price r
           | None => previous_price
           end.
Proof.
  induction records as [|r records IH]; intros prev Hall; [done|].
  apply Forall_cons in Hall as [Hr Hall].
  rewrite last_matching_cons. simpl.
  unfold textual, same_product, usable_price in *.
  destruct (dict_get r "product_name" (VStr "")) as [| |s]; try done.
  simpl. destruct (String.eqb _ _).
  - destruct (py_float (dict_get r "price" (VInt 0))) eqn:Hp;
      rewrite IH by done;
      destruct (last_matching order records); by rewrite ?Hp.
  - rewrite IH by done. by destruct (last_matching order records).
Qed.

(** The scan returns only on rows with textual names. *)
Lemma previous_price_loop_returns (order : OrderRequest) (records : list row) :
  ∀ previous_price p,
  BE.previous_price_loop order records previous_price = Return p →
  Forall (λ r, textual r = true) records.
Proof.
  induction records as [|r records IH]; intros prev p Hp; [constructor|].
  simpl in Hp. unfold textual.
  destruct (dict_get r "product_name" (VStr "")) as [| |s] eqn:Hn;
    try done.
  simpl in Hp. constructor; [by rewrite Hn|].
  destruct (String.eqb _ _); [destruct (py_float _)|]; eauto.
Qed.

Lemma previous_price_loop_spec (order : OrderRequest) (records : list row)
    (p : option float) :
  BE.previous_price_loop order records None = Return p ↔
  Forall (λ r, textual r = true) records ∧ p = retained_price order records.
Proof.
  split.
  - intros Hp.
    pose proof (previous_price_loop_returns _ _ _ _ Hp) as Hall.
    rewrite previous_price_loop_textual in Hp by done.
    split; [done|]. unfold retained_price.
    destruct (last_matching order records); by simplify_eq.
  - intros [Hall ->]. rewrite previous_price_loop_textual by done.
    unfold retained_price. by destruct (last_matching order records).
Qed.

(** The two copies scan and compute alike. *)
Lemma Backup_previous_price_loop (order : OrderRequest) (records : list row)
    (previous_price : option float) :
  Backup.previous_price_loop order records previous_price
  = BE.previous_price_loop order records previous_price.
Proof. reflexivity. Qed.

Lemma Backup_price_change_of (order : OrderRequest) (p : option float) :
  Backup.price_change_of order p = BE.price_change_of order p.
Proof. reflexivity. Qed.

(** ** The two endpoints, step by step *)

Lemma add_order_unfold (order : OrderRequest) (sh : Sheet) :
  BE.add_order order sh =
    match open_fault sh with
    | Some m => (Return (JSONResponse 500 (error_content m)), sh)
    | None =>
    match read_fault sh with
    | Some m => (Return (JSONResponse 500 (error_content m)), sh)
    | None =>
    match BE.previous_price_loop order (records_of sh) None with
    | Raise m => (Return (JSONResponse 500 (error_content m)), sh)
    | Return p =>
    match append_fault sh with
    | Some m => (Return (JSONResponse 500 (error_content m)), sh)
    | None =>
        (Return (Ok (confirmation (BE.price_change_of order p))),
         appended sh (order_row order (BE.price_change_of order p)))
    end end end end.
Proof.
  unfold BE.add_order, try_except, get_gsheet, fault, get_all_records,
    append_row, lift, mbind, mret, Py_bind, Py_ret.
  destruct (open_fault sh); [done|].
  destruct (read_fault sh); [done|].
  destruct (BE.previous_price_loop _ _ _); [|done].
  by destruct (append_fault sh).
Qed.

(** * The claims *)

(** ** C1: which price the scan retains *)

(** C1, as worded, fails: with the rows Widget at 10.0 and then Widget with
    the price cell [abc], the scan ends without a previous price, although
    skipping the unparsable row would retain 10.0. *)
Lemma later_parse_failure_discards_price :
  BE.previous_price_loop (widget "Widget" 15)
    (records_of broken_price_sheet) None = Return None
  ∧ retained_skipping_unparsable (widget "Widget" 15)
      (records_of broken_price_sheet) = Some 10%float.
Proof. split; by vm_compute. Qed.

(** C1 (amended): for every create request and every fetched sequence of
    rows that the scan gets through, in both copies the previous price used
    for the delta is decided by the last row, in store iteration order,
    whose trim-normalized case-insensitive product_name equals the
    request's: it is that row's price when the price parses, and there is no
    previous price when it does not parse (a price retained from an earlier
    matching row is discarded) or when no row matches. *)
Theorem previous_price_is_last_match (order : OrderRequest)
    (records : list row) :
  Forall (λ r, textual r = true) records →
  BE.previous_price_loop order records None
    = Return (last_matching order records ≫= usable_price)
  ∧ Backup.previous_price_loop order records None
    = Return (last_matching order records ≫= usable_price).
Proof.
  intros Hall.
  split;
    [|change (Backup.previous_price_loop order records None)
        with (BE.previous_price_loop order records None)];
    by apply previous_price_loop_spec.
Qed.

Lemma previous_price_is_last_match_witness :
  BE.previous_price_loop (widget "Widget" 15) (records_of widget_sheet) None
    = Return (Some 12%float).
Proof.
  refine (proj1 (previous_price_is_last_match (widget "Widget" 15)
                   (records_of widget_sheet) _)).
  repeat (constructor; [by vm_compute|]). constructor.
Defined.

(** ** C2: when the sentinel is returned *)

(** C2, as worded, fails on the same store: the confirmation carries the
    sentinel, yet a matching row with a parsable price is there and its
    price, 10.0, differs from the submitted 15.0. *)
Lemma sentinel_despite_parsable_match :
  (BE.add_order (widget "Widget" 15) broken_price_sheet).1
    = Return (Ok (confirmation "-"))
  ∧ ¬ sentinel_condition_claimed (widget "Widget" 15)
        (records_of broken_price_sheet).
Proof.
  split; [by vm_compute|].
  assert (retained_skipping_unparsable (widget "Widget" 15)
            (records_of broken_price_sheet) = Some 10%float) as E
    by (by vm_compute).
  unfold sentinel_condition_claimed. rewrite E.
  intros [?|(p & [= <-] & Hp)]; [done|]. by vm_compute in Hp.
Qed.

(** C2 (amended): for every create request that is confirmed, the
    latest_price_change of the confirmation is the sentinel exactly when the
    last matching row yields no previous price (there is no matching row, or
    the price of the last one does not parse) or the float difference
    request.price minus previous price compares equal to zero; otherwise it
    is the string of that difference. *)
Theorem price_change_sentinel (order : OrderRequest) (sh sh' : Sheet)
    (resp : BE.OrderResponse) :
  BE.add_order order sh = (Return (Ok resp), sh') →
  (BE.OrderResponse.latest_price_change resp = "-" ↔
     retained_price order (records_of sh) = None ∨
     ∃ p, retained_price order (records_of sh) = Some p ∧
          (OrderRequest.price order - p =? 0)%float = true)
  ∧ (∀ p, retained_price order (records_of sh) = Some p →
          (OrderRequest.price order - p =? 0)%float = false →
          BE.OrderResponse.latest_price_change resp
            = PyFloat.to_string (OrderRequest.price order - p)).
Proof.
  rewrite add_order_unfold. intros H.
  destruct (open_fault sh); [done|]. destruct (read_fault sh); [done|].
  destruct (BE.previous_price_loop _ _ _) as [prev|] eqn:Hloop; [|done].
  destruct (append_fault sh); [done|]. simplify_eq. simpl.
  apply previous_price_loop_spec in Hloop as [_ ->].
  destruct (retained_price order (records_of sh)) as [p|]; simpl.
  - destruct (_ =? 0)%float eqn:Hz; simpl.
    + split; [|by intros ? [= <-]; rewrite Hz].
      split; [|done]. intros _. right. by exists p.
    + split; [|by intros ? [= <-]].
      split; [by intros ?%to_string_not_sentinel|].
      intros [?|(q & [= <-] & Hq)]; [done|]. by rewrite Hz in Hq.
  - split; [|done]. split; [by left|done].
Qed.

Lemma price_change_sentinel_witness :
  "3.0" = PyFloat.to_string (15 - 12).
Proof.
  refine (proj2 (price_change_sentinel (widget "Widget" 15) widget_sheet
                   _ (confirmation "3.0") _) 12%float _ _);
    by vm_compute.
Defined.

(** ** C3: a run of calls with increasing prices *)

Lemma records_of_appended (sh : Sheet) (cells : list value) :
  records_of (appended sh cells) =
    records_of sh
    ++ [dict_zip (header sh)
          (pad_row (length (header sh)) (numericise <$> cells))].
Proof. unfold records_of. simpl. by rewrite fmap_app. Qed.

Lemma order_record_lookup (order : OrderRequest) (l : string) :
  order_record order l !! "product_name"
    = Some (numericise (VStr (OrderRequest.product_name order)))
  ∧ order_record order l !! "price" = Some (VFloat (OrderRequest.price order)).
Proof.
  unfold order_record, dict_zip, order_columns, order_row, pad_row.
  cbn [fmap list_fmap length Nat.sub replicate app zip zip_with foldl fst snd].
  change (numericise (VFloat (OrderRequest.price order)))
    with (VFloat (OrderRequest.price order)).
  split; by simplify_map_eq.
Qed.

Lemma order_record_textual (order : OrderRequest) (l : string) :
  reads_as_text (OrderRequest.product_name order) →
  textual (order_record order l) = true.
Proof.
  intros Hn. unfold textual, dict_get.
  by rewrite (proj1 (order_record_lookup order l)), Hn.
Qed.

Lemma order_record_same_product (order order' : OrderRequest) (l : string) :
  reads_as_text (OrderRequest.product_name order) →
  PyStr.lower (PyStr.strip (OrderRequest.product_name order))
  = PyStr.lower (PyStr.strip (OrderRequest.product_name order')) →
  same_product order' (order_record order l) = true.
Proof.
  intros Hn E. unfold same_product, dict_get.
  rewrite (proj1 (order_record_lookup order l)), Hn. simpl.
  rewrite E. apply String.eqb_refl.
Qed.

Lemma order_record_price (order : OrderRequest) (l : string) :
  usable_price (order_record order l) = Some (OrderRequest.price order).
Proof.
  unfold usable_price, dict_get.
  by rewrite (proj2 (order_record_lookup order l)).
Qed.

(** On a ready ledger [add_order] confirms and appends its row; when the
    product name does not look numeric the ledger stays ready. *)
Lemma add_order_ready (order : OrderRequest) (sh : Sheet) :
  ledger_ready sh →
  let l := BE.price_change_of order (retained_price order (records_of sh)) in
  BE.add_order order sh
    = (Return (Ok (confirmation l)), appended sh (order_row order l))
  ∧ records_of (appended sh (order_row order l))
    = records_of sh ++ [order_record order l]
  ∧ (reads_as_text (OrderRequest.product_name order) →
     ledger_ready (appended sh (order_row order l))).
Proof.
  intros (((Ho & Hr) & Ha) & Hh & Hall) l.
  assert (records_of (appended sh (order_row order l))
          = records_of sh ++ [order_record order l]) as Hrec.
  { rewrite records_of_appended, Hh. done. }
  split; [|split; [done|]].
  - rewrite add_order_unfold, Ho, Hr, Ha.
    by rewrite (proj2 (previous_price_loop_spec order (records_of sh) _)
                  (conj Hall eq_refl)).
  - intros Hn. repeat split; try done. rewrite Hrec.
    apply Forall_app. split; [done|].
    constructor; [by apply order_record_textual|constructor].
Qed.

(** X17.
    Calls for a product whose name does not look numeric: on a ledger that
    every call can use, for every sequence of CreateOrder calls for the same
    product name with strictly increasing submitted prices, applied one
    after another, every call after the first is confirmed with
    latest_price_change equal to the string of the difference between its
    price and the price of the call just before, and that difference is
    positive. *)
Theorem increasing_prices_positive_change (name : string)
    (orders : list OrderRequest) :
  ∀ (sh : Sheet) (i : nat) (before this : OrderRequest),
  ledger_ready sh →
  for_product name orders →
  Forall (λ o, reads_as_text (OrderRequest.product_name o)) orders →
  increasing_prices orders →
  orders !! i = Some before →
  orders !! S i = Some this →
  (create_orders orders sh).1 !! S i
    = Some (Return (Ok (confirmation
        (PyFloat.to_string
           (OrderRequest.price this - OrderRequest.price before)))))
  ∧ (0 <? OrderRequest.price this - OrderRequest.price before)%float = true.
Proof.
  induction orders as [|a orders IH];
    intros sh i before this Hsh Hn Htxt Hinc Hb Ht; [done|].
  apply Forall_cons in Hn as [Ha Hn].
  apply Forall_cons in Htxt as [Hta Htxt].
  pose proof (add_order_ready a sh Hsh) as (Hadd & Hrec1 & Hsh1).
  specialize (Hsh1 Hta).
  simpl create_orders. rewrite Hadd.
  set (sh1 := appended _ _) in *.
  destruct i as [|i].
  - simpl in Hb, Ht. simplify_eq.
    destruct orders as [|b orders]; simplify_eq. simpl in Ht. simplify_eq.
    destruct Hinc as [Hlt _]. apply Forall_cons in Hn as [Hb _].
    pose proof (add_order_ready this sh1 Hsh1) as (Hadd2 & _ & _).
    simpl create_orders. rewrite Hadd2.
    destruct (create_orders orders _) as [resps sh2]. simpl.
    pose proof (float_sub_pos _ _ Hlt) as Hpos.
    split; [|done]. do 3 f_equal.
    unfold retained_price. rewrite Hrec1.
    rewrite last_matching_snoc
      by (apply order_record_same_product; [done|congruence]).
    simpl. rewrite order_record_price. unfold BE.price_change_of.
    by rewrite (float_pos_ne_zero _ Hpos).
  - simpl in Hb. change ((a :: orders) !! S (S i)) with (orders !! S i) in Ht.
    assert (increasing_prices orders) as Hinc'.
    { destruct orders; [done|]. by destruct Hinc. }
    pose proof (IH sh1 i before this Hsh1 Hn Htxt Hinc' Hb Ht) as [Hi Hpos].
    destruct (create_orders orders sh1) as [resps sh2]. by simpl in *.
Qed.

Lemma increasing_prices_positive_change_witness :
  (create_orders three_orders (sheet_of [])).1 !! 2%nat
    = Some (Return (Ok (confirmation "3.5")))
  ∧ (0 <? 15.5 - 12)%float = true.
Proof.
  refine (increasing_prices_positive_change "Widget" three_orders
            (sheet_of []) 1 (widget "widget " 12) (widget " WIDGET" 15.5)
            _ _ _ _ _ _).
  - repeat split. constructor.
  - repeat (constructor; [by vm_compute|]). constructor.
  - repeat (constructor; [by vm_compute|]). constructor.
  - repeat split.
  - reflexivity.
  - reflexivity.
Defined.

(** C3 (the code at the failing input): two CreateOrder calls for the
    product name 123 at 10.0 and then 12.0, on an empty ledger.  The first
    is confirmed and its row appended; the row reads back with the name as
    the number 123, the [strip] of the second call's scan raises, and the
    second call answers with the 500 response instead of the price change
    2.0, appending nothing. *)
Lemma numeric_product_name_breaks_run :
  create_orders [ widget "123" 10; widget "123" 12 ] (sheet_of [])
  = ([ Return (Ok (confirmation "-"));
       Return (JSONResponse 500
         {[ "detail" := "Error accessing Google Sheet: " +:+
                        "'int' object has no attribute 'strip'" ]}) ],
     appended (sheet_of []) (order_row (widget "123" 10) "-"))
  ∧ PyFloat.to_string (12 - 10) = "2.0".
Proof. split; by vm_compute. Qed.

(** ** C4: the product name is compared up to case and outer whitespace *)


Lemma backup_add_order_unfold (order : OrderRequest) (sh : Sheet) :
  Backup.add_order order sh =
    match open_fault sh with
    | Some m => (Return (JSONResponse 500 (error_content m)), sh)
    | None =>
    match read_fault sh with
    | Some m => (Return (JSONResponse 500 (error_content m)), sh)
    | None =>
    match BE.previous_price_loop order (records_of sh) None with
    | Raise m => (Return (JSONResponse 500 (error_content m)), sh)
    | Return p =>
    match append_fault sh with
    | Some m => (Return (JSONResponse 500 (error_content m)), sh)
    | None =>
        (Return (Ok (full_confirmation order (BE.price_change_of order p))),
         appended sh (order_row order (BE.price_change_of order p)))
    end end end end.
Proof.
  unfold Backup.add_order, try_except, get_gsheet, fault, get_all_records,
    append_row, lift, mbind, mret, Py_bind, Py_ret.
  destruct (open_fault sh); [done|].
  destruct (read_fault sh); [done|].
  change (Backup.previous_price_loop order (records_of sh) None)
    with (BE.previous_price_loop order (records_of sh) None).
  destruct (BE.previous_price_loop _ _ _); [|done].
  by destruct (append_fault sh).
Qed.

(** The richer copy does what the first one does and echoes the request. *)
Lemma backup_refines (order : OrderRequest) (sh : Sheet) :
  (Backup.add_order order sh).2 = (BE.add_order order sh).2
  ∧ outcome_map (http_map without_echo) (Backup.add_order order sh).1
    = (BE.add_order order sh).1.
Proof.
  rewrite add_order_unfold, backup_add_order_unfold.
  destruct (open_fault sh); [done|]. destruct (read_fault sh); [done|].
  destruct (BE.previous_price_loop _ _ _); [|done].
  by destruct (append_fault sh).
Qed.



(** ** C5: listing drops the rows that do not parse *)

Lemma history_loop_spec (records : list row) :
  ∀ orders, BE.history_loop records orders = orders ++ omap parsed records.
Proof.
  induction records as [|r records IH]; intros orders; simpl.
  - by rewrite app_nil_r.
  - fold (with_price_change_str r). fold (parsed r).
    destruct (parsed r); rewrite IH; [|done].
    by rewrite <- app_assoc.
Qed.

(** C5: whenever the rows can be fetched, ListOrders succeeds whatever the
    rows are: its orders are exactly the rows that map onto the Order
    shape, in store iteration order, the others being omitted; on an empty
    store the list of orders is empty. *)
Theorem list_orders_drops_malformed_rows (sh : Sheet) :
  reachable sh →
  BE.get_order_history sh
    = (Return (Ok {| BE.orders := omap parsed (records_of sh) |}), sh)
  ∧ (rows sh = [] →
     BE.get_order_history sh = (Return (Ok {| BE.orders := [] |}), sh)).
Proof.
  intros [Ho Hr].
  assert (BE.get_order_history sh
          = (Return (Ok {| BE.orders := omap parsed (records_of sh) |}), sh))
    as E.
  { unfold BE.get_order_history, try_except, get_gsheet, fault,
      get_all_records, mbind, mret, Py_bind, Py_ret.
    rewrite Ho, Hr. by rewrite history_loop_spec. }
  split; [done|]. intros Hrows. rewrite E. unfold records_of.
  by rewrite Hrows.
Qed.

Lemma list_orders_drops_malformed_rows_witness :
  BE.get_order_history mixed_sheet
    = (Return (Ok {| BE.orders := omap parsed (records_of mixed_sheet) |}),
       mixed_sheet)
  ∧ length (omap parsed (records_of mixed_sheet)) = 2%nat.
Proof.
  split.
  - refine (proj1 (list_orders_drops_malformed_rows mixed_sheet _)).
    by split.
  - by vm_compute.
Defined.

(** ** C6: a store error becomes a 500 response *)

(** C6: if accessing the row store raises an error with message m, while
    the rows are fetched or, in CreateOrder, at the append, then the
    operation returns a 500 response whose body binds detail to the fixed
    prefix followed by m as it is; ListOrders then returns no orders. *)
Theorem store_error_is_reported (order : OrderRequest) (sh : Sheet)
    (m : string) :
  (create_raises order sh m →
   BE.add_order order sh
     = (Return (JSONResponse 500
                  {[ "detail" := "Error accessing Google Sheet: " +:+ m ]}),
        sh))
  ∧ (fetch_raises sh m →
     BE.get_order_history sh
       = (Return (JSONResponse 500
                    {[ "detail" := "Error accessing Google Sheet: " +:+ m ]}),
          sh)).
Proof.
  split.
  - rewrite add_order_unfold.
    intros [[Ho|[Ho Hr]]|((Ho & Hr) & Hall & Ha)].
    + by rewrite Ho.
    + by rewrite Ho, Hr.
    + rewrite Ho, Hr, Ha.
      by rewrite (proj2 (previous_price_loop_spec order (records_of sh) _)
                    (conj Hall eq_refl)).
  - unfold BE.get_order_history, try_except, get_gsheet, fault,
      get_all_records, mbind, mret, Py_bind, Py_ret.
    intros [Ho|[Ho Hr]]; [by rewrite Ho|by rewrite Ho, Hr].
Qed.

Lemma store_error_is_reported_witness :
  BE.add_order (widget "Widget" 15) read_only_sheet
    = (Return (JSONResponse 500
         {[ "detail" := "Error accessing Google Sheet: quota exceeded" ]}),
       read_only_sheet)
  ∧ BE.get_order_history unreachable_sheet
    = (Return (JSONResponse 500
         {[ "detail" := "Error accessing Google Sheet: connection refused" ]}),
       unreachable_sheet).
Proof.
  split.
  - refine (proj1 (store_error_is_reported (widget "Widget" 15)
                     read_only_sheet "quota exceeded") _).
    right. repeat split. repeat (constructor; [by vm_compute|]). constructor.
  - refine (proj2 (store_error_is_reported (widget "Widget" 15)
                     unreachable_sheet "connection refused") _).
    by left.
Defined.

(** ** C7: the ledger only grows, and only by a confirmed order *)

(** C7: every operation keeps the rows that are there: a confirmed
    CreateOrder leaves the sheet with exactly one more row, at the end; a
    CreateOrder that fails leaves the sheet as it was; ListOrders leaves the
    sheet as it was. *)
Theorem ledger_is_append_only (order : OrderRequest) (sh : Sheet) :
  match BE.add_order order sh with
  | (Return (Ok _), sh') =>
      ∃ cells, rows sh' = rows sh ++ [cells] ∧ sh' = appended sh cells
  | (Return (JSONResponse _ _), sh') => sh' = sh
  | (Raise _, _) => False
  end
  ∧ (BE.get_order_history sh).2 = sh.
Proof.
  split.
  - rewrite add_order_unfold.
    destruct (open_fault sh); [done|]. destruct (read_fault sh); [done|].
    destruct (BE.previous_price_loop _ _ _); [|done].
    destruct (append_fault sh); [done|]. by eexists.
  - unfold BE.get_order_history, try_except, get_gsheet, fault,
      get_all_records, mbind, mret, Py_bind, Py_ret.
    destruct (open_fault sh); [done|]. by destruct (read_fault sh).
Qed.

(** ** C8: the two copies *)

(** C8: for every create request and store snapshot the two copies leave
    the same sheet (so they append the same row of eight values) and give
    the same answer once the echoed fields are dropped from the richer
    confirmation: the same latest_price_change and message, or the same 500
    body; the richer confirmation echoes the fields of the request. *)
Theorem copies_agree (order : OrderRequest) (sh : Sheet) :
  (Backup.add_order order sh).2 = (BE.add_order order sh).2
  ∧ outcome_map (http_map without_echo) (Backup.add_order order sh).1
    = (BE.add_order order sh).1
  ∧ match Backup.add_order order sh with
    | (Return (Ok resp), sh') =>
        echoes order resp ∧
        ∃ l, sh' = appended sh (order_row order l) ∧
             length (order_row order l) = 8%nat
    | (Return (JSONResponse _ _), _) => True
    | (Raise _, _) => False
    end.
Proof.
  pose proof (backup_refines order sh) as [H1 H2].
  split; [done|]. split; [done|].
  rewrite backup_add_order_unfold.
  destruct (open_fault sh); [done|]. destruct (read_fault sh); [done|].
  destruct (BE.previous_price_loop _ _ _); [|done].
  destruct (append_fault sh); [done|].
  split; [done|]. by eexists.
Qed.

(** ** C9: the confirmation and the appended row carry the same string *)

(** C9: for every confirmed CreateOrder, in both copies, the row appended
    in that call is the last row of the sheet, has eight values, and its
    eighth value is the latest_price_change string of the confirmation. *)
Theorem confirmation_matches_row (order : OrderRequest) (sh : Sheet) :
  (∀ resp sh', BE.add_order order sh = (Return (Ok resp), sh') →
     ∃ cells, last (rows sh') = Some cells ∧ length cells = 8%nat ∧
       cells !! 7%nat
       = Some (VStr (BE.OrderResponse.latest_price_change resp)))
  ∧ (∀ resp sh', Backup.add_order order sh = (Return (Ok resp), sh') →
     ∃ cells, last (rows sh') = Some cells ∧ length cells = 8%nat ∧
       cells !! 7%nat
       = Some (VStr (Backup.OrderResponse.latest_price_change resp))).
Proof.
  split; intros resp sh';
    [rewrite add_order_unfold|rewrite backup_add_order_unfold];
    (destruct (open_fault sh); [done|]); (destruct (read_fault sh); [done|]);
    (destruct (BE.previous_price_loop _ _ _); [|done]);
    (destruct (append_fault sh); [done|]);
    intros [= <- <-]; eexists; simpl; by rewrite last_snoc.
Qed.

Lemma confirmation_matches_row_witness :
  ∃ cells,
    last (rows (BE.add_order (widget "Widget" 15) widget_sheet).2)
      = Some cells
    ∧ length cells = 8%nat ∧ cells !! 7%nat = Some (VStr "3.0").
Proof.
  refine (proj1 (confirmation_matches_row (widget "Widget" 15) widget_sheet)
            (confirmation "3.0") _ _).
  by vm_compute.
Defined.

(** ** C10: a matching row without a price field *)

(** C10: when the last matching row has no price field at all, the
    previous price is 0.0, not none, so a confirmed CreateOrder carries the
    string of request.price whenever request.price is not zero, and the
    sentinel when it is zero. *)
Theorem missing_price_counts_as_zero (order : OrderRequest) (sh : Sheet)
    (r : row) :
  writable sh →
  Forall (λ r, textual r = true) (records_of sh) →
  last_matching order (records_of sh) = Some r →
  r !! "price" = None →
  BE.previous_price_loop order (records_of sh) None = Return (Some 0%float)
  ∧ (BE.add_order order sh).1
    = Return (Ok (confirmation
        (if (OrderRequest.price order =? 0)%float then "-"
         else PyFloat.to_string (OrderRequest.price order)))).
Proof.
  intros [[Ho Hr] Ha] Hall Hlast Hprice.
  assert (BE.previous_price_loop order (records_of sh) None
          = Return (Some 0%float)) as Hloop.
  { apply previous_price_loop_spec. split; [done|].
    unfold retained_price. rewrite Hlast. simpl.
    unfold usable_price, dict_get. by rewrite Hprice. }
  split; [done|].
  rewrite add_order_unfold, Ho, Hr, Hloop, Ha. simpl.
  unfold BE.price_change_of.
  rewrite float_sub_zero. by destruct (_ =? 0)%float.
Qed.

Lemma missing_price_counts_as_zero_witness :
  (BE.add_order (widget "widget" 15) no_price_sheet).1
  = Return (Ok (confirmation "15.0")).
Proof.
  refine (proj2 (missing_price_counts_as_zero (widget "widget" 15)
                   no_price_sheet
                   {[ "product_name" := VStr "Widget";
                      "supplier" := VStr "Acme" ]} _ _ _ _)).
  - by repeat split.
  - repeat (constructor; [by vm_compute|]). constructor.
  - by vm_compute.
  - by vm_compute.
Defined.

(** ** The examples of the specification *)

Example strip_lower_widget : PyStr.lower (PyStr.strip "  WiDGet ") = "widget".
Proof. reflexivity. Qed.

(** Rows for the product at 10.0 and then 12.0: an order at 15.0 is
    answered with 3.0, the difference to the last matching row. *)
Example last_match_wins :
  (BE.add_order (widget "Widget" 15) widget_sheet).1
  = Return (Ok (confirmation "3.0")).
Proof. by vm_compute. Qed.

(** A price equal to the prior one: the sentinel, and the row is appended. *)
Example equal_price_sentinel :
  BE.add_order (widget "Widget" 12) widget_sheet
  = (Return (Ok (confirmation "-")),
     appended widget_sheet (order_row (widget "Widget" 12) "-")).
Proof. by vm_compute. Qed.

(** No row for the product: the sentinel. *)
Example no_match_sentinel :
  (BE.add_order (widget "Sprocket" 12) widget_sheet).1
  = Return (Ok (confirmation "-")).
Proof. by vm_compute. Qed.

(** A row whose product name reads as a number stops the scan: the call
    fails with a 500 response and appends nothing. *)
Example numeric_name_fails :
  BE.add_order (widget "Widget" 12) (sheet_of [ [ VInt 123 ] ])
  = (Return (JSONResponse 500
       {[ "detail" := "Error accessing Google Sheet: 'int' object has no attribute 'strip'" ]}),
     sheet_of [ [ VInt 123 ] ]).
Proof. by vm_compute. Qed.

(** Equal infinite prices: the difference is not a number, and the
    confirmation carries its string, not the sentinel. *)
Example infinite_prices :
  (BE.add_order (widget "Widget" infinity)
     (sheet_of [ widget_row "Widget" (VFloat infinity) ])).1
  = Return (Ok (confirmation "nan")).
Proof. by vm_compute. Qed.

Example list_orders_mixed :
  OrderHistoryItem.latest_price_change
    <$> omap parsed (records_of mixed_sheet) = [ "-"; "2.5" ].
Proof. by vm_compute. Qed.

(** * Further properties of the service *)

(** ** A product name that reads as a number *)

Lemma previous_price_loop_name_error (order : OrderRequest)
    (records : list row) :
  ∀ previous_price,
  BE.previous_price_loop order records previous_price =
    match first_name_error records with
    | Some msg => Raise msg
    | None =>
        Return match last_matching order records with
               | Some r => usable_price r
               | None => previous_price
               end
    end.
Proof.
  induction records as [|r records IH]; intros prev; [done|].
  rewrite last_matching_cons. simpl.
  unfold same_product, usable_price.
  destruct (dict_get r "product_name" (VStr "")) as [| |s]; try done.
  simpl. destruct (String.eqb _ _).
  - destruct (py_float (dict_get r "price" (VInt 0))) eqn:Hp;
      rewrite IH; destruct (first_name_error records); try done;
      destruct (last_matching order records); by rewrite ?Hp.
  - rewrite IH. destruct (first_name_error records); [done|].
    by destruct (last_matching order records).
Qed.

Lemma first_name_error_message (records : list row) (msg : string) :
  first_name_error records = Some msg →
  msg = "'int' object has no attribute 'strip'"
  ∨ msg = "'float' object has no attribute 'strip'".
Proof.
  induction records as [|r records IH]; [done|]. simpl.
  destruct (dict_get r "product_name" (VStr "")) as [| |s]; simpl;
    [intros [= <-]; by left|intros [= <-]; by right|done].
Qed.

Lemma get_order_history_unfold (sh : Sheet) :
  BE.get_order_history sh =
    match open_fault sh with
    | Some m => (Return (JSONResponse 500 (error_content m)), sh)
    | None =>
    match read_fault sh with
    | Some m => (Return (JSONResponse 500 (error_content m)), sh)
    | None =>
        (Return (Ok {| BE.orders := omap parsed (records_of sh) |}), sh)
    end end.
Proof.
  unfold BE.get_order_history, try_except, get_gsheet, fault,
    get_all_records, mbind, mret, Py_bind, Py_ret.
  destruct (open_fault sh); [done|]. destruct (read_fault sh); [done|].
  by rewrite history_loop_spec.
Qed.

(** X1.
    When some fetched row, for whatever product, has a product name that
    reads as a number, every CreateOrder fails: the [strip] of the scan
    raises outside the inner [try], the answer is the 500 response with the
    message of the attribute error, and nothing is appended.  ListOrders on
    the same store still succeeds. *)
Theorem numeric_name_blocks_every_order (order : OrderRequest) (sh : Sheet)
    (msg : string) :
  reachable sh →
  first_name_error (records_of sh) = Some msg →
  BE.add_order order sh
    = (Return (JSONResponse 500
                 {[ "detail" := "Error accessing Google Sheet: " +:+ msg ]}),
       sh)
  ∧ (msg = "'int' object has no attribute 'strip'"
     ∨ msg = "'float' object has no attribute 'strip'")
  ∧ BE.get_order_history sh
    = (Return (Ok {| BE.orders := omap parsed (records_of sh) |}), sh).
Proof.
  intros [Ho Hr] Hmsg. repeat split.
  - rewrite add_order_unfold, Ho, Hr, previous_price_loop_name_error.
    by rewrite Hmsg.
  - by eapply first_name_error_message.
  - by rewrite get_order_history_unfold, Ho, Hr.
Qed.

Lemma numeric_name_blocks_every_order_witness :
  BE.add_order (widget "Gadget" 3)
    (sheet_of [ widget_row "Widget" (VFloat 10); [ VFloat 2.5 ] ])
  = (Return (JSONResponse 500
       {[ "detail" := "Error accessing Google Sheet: " +:+
                      "'float' object has no attribute 'strip'" ]}),
     sheet_of [ widget_row "Widget" (VFloat 10); [ VFloat 2.5 ] ]).
Proof.
  refine (proj1 (numeric_name_blocks_every_order (widget "Gadget" 3)
                   (sheet_of [ widget_row "Widget" (VFloat 10);
                               [ VFloat 2.5 ] ])
                   "'float' object has no attribute 'strip'" _ _)).
  - by split.
  - by vm_compute.
Defined.

(** ** An order that was added is listed *)

Lemma parsed_order_record (order : OrderRequest) (l : string) :
  reads_as_text (OrderRequest.product_name order) →
  plain_text_fields order →
  parsed (order_record order l)
  = Some (order_item order (py_str (numericise (VStr l)))).
Proof.
  intros Hn (Hs & Hd & Hst & Ha). unfold reads_as_text in *.
  unfold parsed, with_price_change_str, order_record, dict_zip,
    order_columns, order_row, pad_row.
  cbn [fmap list_fmap length Nat.sub replicate app zip zip_with foldl fst snd].
  rewrite Hn, Hs, Hd, Hst, Ha.
  change (numericise (VFloat (OrderRequest.price order)))
    with (VFloat (OrderRequest.price order)).
  change (numericise (VInt (OrderRequest.quantity order)))
    with (VInt (OrderRequest.quantity order)).
  rewrite lookup_insert_eq.
  unfold Pydantic.OrderHistoryItem_of, Pydantic.str_field,
    Pydantic.float_field, Pydantic.int_field, Pydantic.optional_str_field.
  by simplify_map_eq.
Qed.

(** X2.
    On a sheet whose header names the columns in the order in which
    [add_order] writes them, for an order whose text fields do not look
    numeric, a confirmed CreateOrder followed by ListOrders lists what was
    listed before and, last, the order as it was submitted, with the
    latest_price_change of the confirmation as its cell reads back: in the
    string form of the number when it looks numeric, and as it is
    otherwise. *)
Theorem added_order_is_listed (order : OrderRequest) (sh sh' : Sheet)
    (resp : BE.OrderResponse) :
  header sh = order_columns →
  reads_as_text (OrderRequest.product_name order) →
  plain_text_fields order →
  BE.add_order order sh = (Return (Ok resp), sh') →
  ∃ before,
    BE.get_order_history sh = (Return (Ok {| BE.orders := before |}), sh)
    ∧ BE.get_order_history sh'
      = (Return (Ok {| BE.orders :=
           before ++ [order_item order
                        (py_str (numericise (VStr
                           (BE.OrderResponse.latest_price_change resp))))] |}),
         sh').
Proof.
  intros Hh Hn Hp. rewrite add_order_unfold, !get_order_history_unfold.
  destruct (open_fault sh) eqn:Ho; [done|].
  destruct (read_fault sh) eqn:Hr; [done|].
  destruct (BE.previous_price_loop _ _ _); [|done].
  destruct (append_fault sh); [done|]. intros [= <- <-].
  eexists. split; [done|].
  change (open_fault (appended sh _)) with (open_fault sh).
  change (read_fault (appended sh _)) with (read_fault sh).
  rewrite Ho, Hr, records_of_appended, Hh, omap_app.
  fold (order_record order (BE.price_change_of order a)).
  cbn [omap list_omap]. by rewrite parsed_order_record.
Qed.

Lemma added_order_is_listed_witness :
  ∃ before,
    BE.get_order_history widget_sheet
      = (Return (Ok {| BE.orders := before |}), widget_sheet)
    ∧ BE.get_order_history
        (appended widget_sheet (order_row (widget "Widget" 15) "3.0"))
      = (Return (Ok {| BE.orders :=
           before ++ [order_item (widget "Widget" 15) "3.0"] |}),
         appended widget_sheet (order_row (widget "Widget" 15) "3.0")).
Proof.
  refine (added_order_is_listed (widget "Widget" 15) widget_sheet _
            (confirmation "3.0") _ _ _ _); by vm_compute.
Defined.

(** ** What the listing makes of the price change cell *)

Lemma lookup_with_price_change_str (r : row) (key : string) :
  key ≠ "latest_price_change" →
  with_price_change_str r !! key = r !! key.
Proof.
  intros Hk. unfold with_price_change_str.
  destruct (r !! "latest_price_change"); [|done].
  by rewrite lookup_insert_ne.
Qed.

Lemma price_change_field (r : row) :
  Pydantic.optional_str_field (with_price_change_str r)
    "latest_price_change" "-"
  = Some match r !! "latest_price_change" with
         | Some v => py_str v
         | None => "-"
         end.
Proof.
  unfold Pydantic.optional_str_field, with_price_change_str.
  destruct (r !! "latest_price_change") eqn:E.
  - by rewrite lookup_insert_eq.
  - by rewrite E.
Qed.

(** X3.
    ListOrders never drops a row because of its latest_price_change cell:
    a row is listed exactly when its seven required fields map onto the
    Order shape, and the listed latest_price_change is the string form of
    the cell, whatever its type, or the sentinel when the row has no such
    cell. *)
Theorem price_change_cell_never_drops_row (r : row) :
  (is_Some (parsed r) ↔ required_fields_ok r = true)
  ∧ ∀ item, parsed r = Some item →
      OrderHistoryItem.latest_price_change item
      = match r !! "latest_price_change" with
        | Some v => py_str v
        | None => "-"
        end.
Proof.
  unfold parsed, Pydantic.OrderHistoryItem_of, required_fields_ok.
  rewrite price_change_field.
  unfold Pydantic.str_field, Pydantic.float_field, Pydantic.int_field.
  rewrite !lookup_with_price_change_str by done.
  fold (Pydantic.str_field r "product_name").
  fold (Pydantic.str_field r "supplier").
  fold (Pydantic.float_field r "price").
  fold (Pydantic.int_field r "quantity").
  fold (Pydantic.str_field r "purchase_date").
  fold (Pydantic.str_field r "staff_in_charge").
  fold (Pydantic.str_field r "approver").
  destruct (Pydantic.str_field r "product_name"),
    (Pydantic.str_field r "supplier"), (Pydantic.float_field r "price"),
    (Pydantic.int_field r "quantity"),
    (Pydantic.str_field r "purchase_date"),
    (Pydantic.str_field r "staff_in_charge"),
    (Pydantic.str_field r "approver"); simpl;
    (split; [split; [done|try done; by intros [? ?]]|
             try done; by intros ? [= <-]]).
Qed.

Lemma price_change_cell_never_drops_row_witness :
  OrderHistoryItem.latest_price_change
    (order_item (widget "Widget" 10) "2.5") = "2.5".
Proof.
  refine (proj2 (price_change_cell_never_drops_row
                   (dict_zip order_columns
                      [ VStr "Widget"; VStr "Acme"; VFloat 10; VInt 4;
                        VStr "2025-01-31"; VStr "Dana"; VStr "Lee";
                        VFloat 2.5 ]))
            (order_item (widget "Widget" 10) "2.5") _).
  by vm_compute.
Defined.

(** ** A run of calls on a ledger that is ready *)

(** X4.
    On a ledger that every call can use, no CreateOrder of a run for
    products whose names do not look numeric fails: each call is
    confirmed, the ledger ends with the rows that were there followed by
    one row per call, in call order, each carrying the
    latest_price_change that was confirmed, and it is ready for further
    calls. *)
Theorem run_on_ready_ledger (orders : list OrderRequest) :
  ∀ sh : Sheet,
  ledger_ready sh →
  Forall (λ o, reads_as_text (OrderRequest.product_name o)) orders →
  ∃ changes : list string,
    length changes = length orders
    ∧ (create_orders orders sh).1
      = (λ l, Return (Ok (confirmation l))) <$> changes
    ∧ rows (create_orders orders sh).2
      = rows sh ++ zip_with order_row orders changes
    ∧ ledger_ready (create_orders orders sh).2.
Proof.
  induction orders as [|order orders IH]; intros sh Hsh Htxt.
  - exists []. simpl. by rewrite app_nil_r.
  - apply Forall_cons in Htxt as [Hn Htxt].
    pose proof (add_order_ready order sh Hsh) as (Hadd & _ & Hsh1).
    specialize (Hsh1 Hn).
    simpl create_orders. rewrite Hadd.
    set (l := BE.price_change_of order _) in *.
    destruct (IH _ Hsh1 Htxt) as (changes & Hlen & Hresp & Hrows & Hready).
    destruct (create_orders orders _) as [resps sh2]. simpl in *.
    exists (l :: changes). simpl. rewrite Hlen, Hresp, Hrows.
    by rewrite <- app_assoc.
Qed.

Lemma run_on_ready_ledger_witness :
  ∃ changes : list string,
    length changes = 3%nat
    ∧ (create_orders three_orders (sheet_of [])).1
      = (λ l, Return (Ok (confirmation l))) <$> changes
    ∧ rows (create_orders three_orders (sheet_of [])).2
      = [] ++ zip_with order_row three_orders changes
    ∧ ledger_ready (create_orders three_orders (sheet_of [])).2.
Proof.
  refine (run_on_ready_ledger three_orders (sheet_of []) _ _).
  - repeat split. constructor.
  - repeat (constructor; [by vm_compute|]). constructor.
Defined.

(** ** The listing of the second copy *)

(** X5.
    For every store the two copies list alike: [get_order_history] of the
    second copy leaves the sheet as it is and answers with the same orders,
    or with the same 500 body, as that of the first copy. *)
Theorem copies_list_alike (sh : Sheet) :
  (Backup.get_order_history sh).2 = sh
  ∧ outcome_map (http_map Backup.orders) (Backup.get_order_history sh).1
    = outcome_map (http_map BE.orders) (BE.get_order_history sh).1.
Proof.
  rewrite get_order_history_unfold.
  unfold Backup.get_order_history, try_except, get_gsheet, fault,
    get_all_records, mbind, mret, Py_bind, Py_ret.
  destruct (open_fault sh); [done|]. destruct (read_fault sh); [done|].
  simpl. split; [done|]. do 2 f_equal.
  change (Backup.history_loop (records_of sh) [])
    with (BE.history_loop (records_of sh) []).
  by rewrite history_loop_spec.
Qed.

(** ** Differences of prices in binary64 *)

Lemma binary_round_aux_signed (s : bool) (m e : Z) (l : location) :
  0 < m → emin <= e →
  match binary_round_aux prec emax s m e l with
  | S754_finite s' _ _ | S754_infinity s' => s' = s
  | _ => False
  end.
Proof.
  intros Hm He. unfold binary_round_aux.
  pose proof (shr_fexp_pos m e l Hm He) as [H1 H2].
  destruct (shr_fexp prec emax m e l) as [mrs' e']. simpl in H1, H2.
  pose proof (shr_fexp_pos _ e' loc_Exact
                (round_nearest_even_pos _ (loc_of_shr_record mrs') H1) H2)
    as [H3 _].
  destruct (shr_fexp prec emax _ e' loc_Exact) as [mrs'' e'']. simpl in H3.
  destruct (shr_m mrs'') as [|p|p]; try lia.
  by destruct (e'' <=? emax - prec).
Qed.

Lemma binary_round_signed (s : bool) (m : positive) (e : Z) :
  emin <= e →
  match binary_round prec emax s m e with
  | S754_finite s' _ _ | S754_infinity s' => s' = s
  | _ => False
  end.
Proof.
  intros He. unfold binary_round.
  pose proof (shl_align_exponent m e
                (fexp prec emax (Zpos (digits2_pos m) + e)) He) as H.
  destruct (shl_align m e _) as [mz ez]. simpl in H.
  apply binary_round_aux_signed; [done|]. apply H.
  unfold fexp, SpecFloat.emin, prec, emax. lia.
Qed.

Lemma SFsub_lt_neg (x y : spec_float) :
  valid_binary x = true → valid_binary y = true →
  SFltb x y = true →
  SFltb (SFsub prec emax x y) (S754_zero false) = true.
Proof.
  unfold SFltb. intros Hx Hy Hlt.
  destruct (SFcompare x y) as [[]|] eqn:Hc; try done. clear Hlt.
  destruct x as [sx|sx| |sx mx ex], y as [sy|sy| |sy my ey];
    try done; try (by destruct sx, sy); try (by destruct sx);
    try (by destruct sy).
  simpl in Hx, Hy.
  pose proof (aligned_difference_pos _ _ _ _ _ _ Hx Hy Hc) as Hd.
  rewrite (Z.min_comm ey ex) in Hd.
  unfold SFsub. cbv zeta.
  remember (cond_Zopp sx (Zpos (shl_align mx ex (Z.min ex ey)).1)
            - cond_Zopp sy (Zpos (shl_align my ey (Z.min ex ey)).1))
    as D eqn:HD.
  destruct D as [|d|d]; try lia.
  simpl binary_normalize.
  pose proof (binary_round_signed true d (Z.min ex ey)) as Hr.
  apply bounded_inv in Hx as [? _], Hy as [? _].
  specialize (Hr ltac:(lia)).
  destruct (binary_round prec emax true d _) as [| | |s' m' e'];
    try done; by subst.
Qed.

Lemma SFsub_eq_zero (x y : spec_float) :
  SFcompare x y = Some Eq →
  match x, y with
  | S754_infinity _, _ | _, S754_infinity _ => True
  | _, _ => ∃ s, SFsub prec emax x y = S754_zero s
  end.
Proof.
  intros Hc.
  destruct x as [sx|sx| |sx mx ex], y as [sy|sy| |sy my ey];
    try done; try (by destruct sx); try (by destruct sy).
  - destruct sx, sy; by eexists.
  - simpl in Hc.
    assert (sx = sy ∧ ex = ey ∧ mx = my) as (-> & -> & ->).
    { destruct sx, sy; try done;
        destruct (Z.compare_spec ex ey); try done;
        (repeat split; [done|]);
        apply Pos.compare_eq; unfold Pos.compare;
        by destruct (Pos.compare_cont Eq mx my). }
    unfold SFsub. cbv zeta. rewrite Z.sub_diag. by eexists.
Qed.

Lemma SFcompare_antisym (x y : spec_float) :
  SFcompare x y = Some Gt → SFcompare y x = Some Lt.
Proof.
  destruct x as [sx|sx| |sx mx ex], y as [sy|sy| |sy my ey];
    try done; try (by destruct sx, sy); try (by destruct sx);
    try (by destruct sy).
  simpl.
  change (Pos.compare_cont Eq mx my) with (mx ?= my)%positive.
  change (Pos.compare_cont Eq my mx) with (my ?= mx)%positive.
  rewrite (Z.compare_antisym ex ey), (Pos.compare_antisym mx my).
  destruct sx, sy; try done;
    destruct (ex ?= ey); simpl; try done;
    by destruct (mx ?= my)%positive.
Qed.

(** For finite numbers the difference compares equal to zero exactly when
    the numbers compare equal. *)
Lemma float_sub_eqb (x y : float) :
  isfinite x = true → isfinite y = true →
  (x - y =? 0)%float = (x =? y)%float.
Proof.
  unfold isfinite. intros Hx Hy.
  rewrite !FloatAxioms.eqb_spec, FloatAxioms.sub_spec, Prim2SF_zero.
  unfold SF64sub.
  pose proof (Prim2SF_valid x) as Vx. pose proof (Prim2SF_valid y) as Vy.
  destruct (SFcompare (Prim2SF x) (Prim2SF y)) as [[]|] eqn:Hc.
  - pose proof (SFsub_eq_zero _ _ Hc) as Hz. unfold SFeqb at 2. rewrite Hc.
    destruct (Prim2SF x), (Prim2SF y); try done;
      destruct Hz as [sz ->]; done.
  - pose proof (SFsub_lt_neg _ _ Vx Vy) as Hn.
    unfold SFltb, SFeqb in *. rewrite Hc in *. specialize (Hn eq_refl).
    by destruct (SFcompare (SFsub _ _ _ _) _) as [[]|].
  - apply SFcompare_antisym in Hc as Hc'.
    pose proof (SFsub_lt_pos _ _ Vy Vx) as Hp.
    unfold SFltb, SFeqb in *. rewrite Hc, Hc' in *. specialize (Hp eq_refl).
    by destruct (SFsub prec emax (Prim2SF x) (Prim2SF y)) as [[]|[]| |[]].
  - by destruct (Prim2SF x), (Prim2SF y).
Qed.

(** [a < b] makes [a - b] negative. *)
Lemma float_sub_neg (a b : float) :
  (a <? b)%float = true → (a - b <? 0)%float = true.
Proof.
  intros Hlt. rewrite FloatAxioms.ltb_spec in Hlt.
  rewrite FloatAxioms.ltb_spec, FloatAxioms.sub_spec, Prim2SF_zero.
  by apply SFsub_lt_neg; try apply Prim2SF_valid.
Qed.

Lemma float_neg_ne_zero (x : float) :
  (x <? 0)%float = true → (x =? 0)%float = false.
Proof.
  intros Hlt. rewrite FloatAxioms.ltb_spec, Prim2SF_zero in Hlt.
  rewrite FloatAxioms.eqb_spec, Prim2SF_zero. revert Hlt.
  unfold SFltb, SFeqb.
  by destruct (Prim2SF x) as [[]|[]| |[]].
Qed.

Lemma string_app_nonempty (a b : string) : b ≠ "" → a +:+ b ≠ "".
Proof. intros Hb. destruct a; [done|]. simpl. done. Qed.

(** The string of a negative number starts with the minus sign and goes
    on. *)
Lemma to_string_negative (x : float) :
  (x <? 0)%float = true →
  ∃ rest, PyFloat.to_string x = String "-" rest ∧ rest ≠ "".
Proof.
  intros Hlt. rewrite FloatAxioms.ltb_spec, Prim2SF_zero in Hlt.
  unfold PyFloat.to_string. revert Hlt. unfold SFltb.
  destruct (Prim2SF x) as [[]|[]| |[] m e]; try done; intros _.
  - by eexists.
  - destruct (PyFloat.shortest _ _ _ _ _) as [d k]. simpl.
    eexists. split; [done|].
    intros E. pose proof (format_digits_mark (PyFloat.digits_string d) k).
    by rewrite E in *.
Qed.

(** ** The price change of a confirmed order *)

Lemma add_order_confirmed (order : OrderRequest) (sh sh' : Sheet)
    (resp : BE.OrderResponse) :
  BE.add_order order sh = (Return (Ok resp), sh') →
  resp = confirmation
           (BE.price_change_of order (retained_price order (records_of sh)))
  ∧ sh' = appended sh (order_row order
                         (BE.OrderResponse.latest_price_change resp)).
Proof.
  rewrite add_order_unfold.
  destruct (open_fault sh); [done|]. destruct (read_fault sh); [done|].
  destruct (BE.previous_price_loop _ _ _) as [prev|] eqn:Hloop; [|done].
  destruct (append_fault sh); [done|]. intros [= <- <-].
  by apply previous_price_loop_spec in Hloop as [_ ->].
Qed.

(** X6.
    With finite prices the sentinel means an unchanged price: a confirmed
    CreateOrder whose price and previous price are both finite carries the
    sentinel exactly when the two compare equal. *)
Theorem unchanged_price_is_sentinel (order : OrderRequest) (sh sh' : Sheet)
    (resp : BE.OrderResponse) (p : float) :
  BE.add_order order sh = (Return (Ok resp), sh') →
  retained_price order (records_of sh) = Some p →
  isfinite (OrderRequest.price order) = true →
  isfinite p = true →
  BE.OrderResponse.latest_price_change resp = "-"
  ↔ (OrderRequest.price order =? p)%float = true.
Proof.
  intros [-> _]%add_order_confirmed Hp Hf1 Hf2. rewrite Hp. simpl.
  rewrite float_sub_eqb by done.
  destruct (_ =? _)%float; simpl; [done|].
  split; [by intros ?%to_string_not_sentinel|done].
Qed.

Lemma unchanged_price_is_sentinel_witness :
  "-" = "-" ↔ (12 =? 12)%float = true.
Proof.
  refine (unchanged_price_is_sentinel (widget "Widget" 12) widget_sheet _
            (confirmation "-") 12%float _ _ _ _); by vm_compute.
Defined.

(** X7.
    A price below the previous one is reported with a minus sign: the
    latest_price_change of the confirmation is the string of the negative
    difference, which starts with the character of the sentinel and goes
    on after it. *)
Theorem price_drop_has_minus_sign (order : OrderRequest) (sh sh' : Sheet)
    (resp : BE.OrderResponse) (p : float) :
  BE.add_order order sh = (Return (Ok resp), sh') →
  retained_price order (records_of sh) = Some p →
  (OrderRequest.price order <? p)%float = true →
  BE.OrderResponse.latest_price_change resp
    = PyFloat.to_string (OrderRequest.price order - p)
  ∧ (OrderRequest.price order - p <? 0)%float = true
  ∧ ∃ rest, BE.OrderResponse.latest_price_change resp = String "-" rest
            ∧ rest ≠ "".
Proof.
  intros [-> _]%add_order_confirmed Hp Hlt. rewrite Hp. simpl.
  pose proof (float_sub_neg _ _ Hlt) as Hneg.
  rewrite (float_neg_ne_zero _ Hneg). simpl.
  repeat split; [done|]. by apply to_string_negative.
Qed.

Lemma price_drop_has_minus_sign_witness :
  "-2.5" = PyFloat.to_string (9.5 - 12)
  ∧ (9.5 - 12 <? 0)%float = true
  ∧ ∃ rest, "-2.5" = String "-" rest ∧ rest ≠ "".
Proof.
  refine (price_drop_has_minus_sign (widget "Widget" 9.5) widget_sheet _
            (confirmation "-2.5") 12%float _ _ _); by vm_compute.
Defined.

Lemma is_nan_spec (x : float) : is_nan x = true → Prim2SF x = S754_nan.
Proof.
  unfold is_nan. rewrite FloatAxioms.eqb_spec. unfold SFeqb.
  destruct (Prim2SF x) as [s|s| |s m e]; try done; try (by destruct s).
  simpl. rewrite Z.compare_refl.
  change (Pos.compare_cont Eq m m) with (m ?= m)%positive.
  rewrite Pos.compare_refl. by destruct s.
Qed.

(** X8.
    A price that is not a number is confirmed and recorded: when the
    submitted price or the previous price is a NaN, the latest_price_change
    is the string nan, not the sentinel. *)
Theorem nan_price_is_recorded (order : OrderRequest) (sh sh' : Sheet)
    (resp : BE.OrderResponse) (p : float) :
  BE.add_order order sh = (Return (Ok resp), sh') →
  retained_price order (records_of sh) = Some p →
  is_nan (OrderRequest.price order) = true ∨ is_nan p = true →
  BE.OrderResponse.latest_price_change resp = "nan"
  ∧ last (rows sh') = Some (order_row order "nan").
Proof.
  intros [-> ->]%add_order_confirmed Hp Hnan. rewrite Hp.
  assert (Prim2SF (OrderRequest.price order - p) = S754_nan) as E.
  { rewrite FloatAxioms.sub_spec. unfold SF64sub.
    destruct Hnan as [->%is_nan_spec| ->%is_nan_spec]; [done|].
    by destruct (Prim2SF (OrderRequest.price order)). }
  assert (BE.price_change_of order (Some p) = "nan") as ->.
  { unfold BE.price_change_of. rewrite FloatAxioms.eqb_spec, E.
    simpl. unfold PyFloat.to_string. by rewrite E. }
  split; [done|]. simpl. by rewrite last_snoc.
Qed.

Lemma nan_price_is_recorded_witness :
  "nan" = "nan"
  ∧ last (rows (appended widget_sheet (order_row (widget "Widget" nan) "nan")))
    = Some (order_row (widget "Widget" nan) "nan").
Proof.
  refine (nan_price_is_recorded (widget "Widget" nan) widget_sheet _
            (confirmation "nan") 12%float _ _ _); try by vm_compute.
  left. by vm_compute.
Defined.

(** ** The OpenAPI document *)

Lemma size_insert_servers (d : gmap string json) (v : json) :
  (size (<["servers" := v]> d) =? 0)%nat = false.
Proof.
  apply Nat.eqb_neq. intros E. apply map_size_empty_iff in E.
  exact (insert_non_empty d "servers" v E).
Qed.

(** X9.
    Once [custom_openapi] has run, the document it returned is what every
    later call returns, without asking the generator again: the result of a
    later call does not depend on the title, version, description or routes
    the application has by then, only on the cached document. *)
Theorem custom_openapi_is_cached (routes_t : Type)
    (get_openapi : string → string → string → routes_t → gmap string json)
    (app later : OpenAPI.FastAPI routes_t) :
  OpenAPI.openapi_schema later
  = OpenAPI.openapi_schema (OpenAPI.custom_openapi get_openapi app).2 →
  OpenAPI.custom_openapi get_openapi later
  = ((OpenAPI.custom_openapi get_openapi app).1, later).
Proof.
  unfold OpenAPI.custom_openapi.
  destruct (OpenAPI.truthy (OpenAPI.openapi_schema app)) eqn:Ht; simpl;
    intros ->.
  - by rewrite Ht.
  - simpl. by rewrite size_insert_servers.
Qed.

Lemma custom_openapi_is_cached_witness :
  OpenAPI.custom_openapi sample_get_openapi
    (OpenAPI.custom_openapi sample_get_openapi fresh_app).2
  = ((OpenAPI.custom_openapi sample_get_openapi fresh_app).1,
     (OpenAPI.custom_openapi sample_get_openapi fresh_app).2).
Proof.
  refine (custom_openapi_is_cached (list string) sample_get_openapi
            fresh_app _ _).
  reflexivity.
Defined.

(** X10.
    When no document is cached yet (none, or an empty one), the document
    [custom_openapi] returns is the generated one with its servers entry
    replaced by the production server list, and it is the document the
    application keeps. *)
Theorem custom_openapi_sets_servers (routes_t : Type)
    (get_openapi : string → string → string → routes_t → gmap string json)
    (app : OpenAPI.FastAPI routes_t) :
  OpenAPI.truthy (OpenAPI.openapi_schema app) = false →
  let generated :=
    get_openapi (OpenAPI.title app) (OpenAPI.version app)
      (OpenAPI.description app) (OpenAPI.routes app) in
  let result := OpenAPI.custom_openapi get_openapi app in
  result.1 !! "servers" = Some OpenAPI.production_servers
  ∧ (∀ key, key ≠ "servers" → result.1 !! key = generated !! key)
  ∧ OpenAPI.openapi_schema result.2 = Some result.1.
Proof.
  intros Ht. unfold OpenAPI.custom_openapi. rewrite Ht. simpl.
  repeat split.
  - apply lookup_insert_eq.
  - intros key Hk. by rewrite lookup_insert_ne.
Qed.

Lemma custom_openapi_sets_servers_witness :
  (OpenAPI.custom_openapi sample_get_openapi fresh_app).1 !! "servers"
  = Some OpenAPI.production_servers.
Proof.
  refine (proj1 (custom_openapi_sets_servers (list string)
                   sample_get_openapi fresh_app _)).
  reflexivity.
Defined.

(** ** The endpoints with credentials check and console output *)

Lemma printed_nil (w : World) : printed w [] = w.
Proof. destruct w. unfold printed. simpl. by rewrite app_nil_r. Qed.

Lemma printed_printed (w : World) (a b : list string) :
  printed (printed w a) b = printed w (a ++ b).
Proof. unfold printed. simpl. by rewrite app_assoc. Qed.

Lemma credentials_check (w : World) :
  credentials_fault (environment w) =
    match GOOGLE_APPLICATION_CREDENTIALS (environment w) with
    | None => Some "Service account credentials file not found at None"
    | Some EmptyString =>
        Some "Service account credentials file not found at "
    | Some path =>
        if bool_decide (path ∈ existing_paths (environment w)) then None
        else Some ("Service account credentials file not found at "
                   +:+ path)
    end.
Proof.
  unfold credentials_fault.
  destruct (GOOGLE_APPLICATION_CREDENTIALS _) as [[|c path]|]; [| |done].
  - rewrite bool_decide_eq_false_2; [reflexivity|]. by intros [? _].
  - destruct (bool_decide (String c path ∈ _)) eqn:E.
    + apply bool_decide_eq_true in E. by rewrite bool_decide_eq_true_2.
    + apply bool_decide_eq_false in E.
      rewrite bool_decide_eq_false_2; [done|]. by intros [_ ?].
Qed.

Lemma logged_get_gsheet_unfold (w : World) :
  Logged.get_gsheet w =
    match open_fault (effective_sheet w) with
    | Some m => (Raise m, printed w [gsheet_line m])
    | None => (Return (), w)
    end.
Proof.
  unfold effective_sheet. simpl. rewrite credentials_check.
  unfold Logged.get_gsheet, try_except_io, getenv_credentials, path_exists,
    raise, print, on_sheet, get_gsheet, fault, mbind, mret, PyIO_bind,
    PyIO_ret.
  destruct w as [[creds paths] sh out]. simpl.
  destruct creds as [[|c path]|]; simpl; try done.
  destruct (bool_decide _); simpl; [|done].
  by destruct (open_fault sh).
Qed.

Lemma logged_add_order_unfold (order : OrderRequest) (w : World) :
  Logged.add_order order w =
    let failed m lines :=
      (Return (JSONResponse 500 (error_content m)),
       printed w (lines ++ ["[ERROR] Failed to add order: " +:+ m])) in
    match open_fault (effective_sheet w) with
    | Some m => failed m [gsheet_line m]
    | None =>
    match read_fault (sheet w) with
    | Some m => failed m []
    | None =>
    match BE.previous_price_loop order (records_of (sheet w)) None with
    | Raise m => failed m []
    | Return p =>
    match append_fault (sheet w) with
    | Some m => failed m []
    | None =>
        (Return (Ok (confirmation (BE.price_change_of order p))),
         with_sheet w
           (appended (sheet w)
              (order_row order (BE.price_change_of order p))))
    end end end end.
Proof.
  unfold Logged.add_order, try_except_io, mbind, PyIO_bind.
  rewrite logged_get_gsheet_unfold.
  destruct (open_fault (effective_sheet w)) as [m|].
  { unfold print, mret, PyIO_ret, printed. simpl. by rewrite <- app_assoc. }
  unfold on_sheet, get_all_records, lift, append_row, print, mret, PyIO_ret,
    printed, with_sheet.
  destruct w as [env sh out]. simpl.
  destruct (read_fault sh); [done|]. simpl.
  destruct (BE.previous_price_loop _ _ _); [|done]. simpl.
  by destruct (append_fault sh).
Qed.

(** X11.
    With the credentials check and the printing in place, [add_order]
    answers as the endpoint studied above does on the sheet as the check
    leaves it, appends the same row, and leaves the environment alone. *)
Theorem logged_add_order_refines (order : OrderRequest) (w : World) :
  (Logged.add_order order w).1 = (BE.add_order order (effective_sheet w)).1
  ∧ rows (sheet (Logged.add_order order w).2)
    = rows (BE.add_order order (effective_sheet w)).2
  ∧ environment (Logged.add_order order w).2 = environment w.
Proof.
  rewrite logged_add_order_unfold, add_order_unfold. cbv zeta.
  destruct (open_fault (effective_sheet w)); [done|].
  change (read_fault (effective_sheet w)) with (read_fault (sheet w)).
  change (append_fault (effective_sheet w)) with (append_fault (sheet w)).
  change (records_of (effective_sheet w)) with (records_of (sheet w)).
  destruct (read_fault (sheet w)); [done|].
  destruct (BE.previous_price_loop _ _ _); [|done].
  by destruct (append_fault (sheet w)).
Qed.

(** X12.
    When the credentials variable is unset or empty, or names a file that
    is not there, both endpoints answer with the 500 response whose detail
    names the path (None when the variable is unset), whatever the state of
    the sheet, which they leave untouched, and print two lines: that of
    [get_gsheet] and their own. *)
Theorem missing_credentials_reported (order : OrderRequest)
    (repr_row error_text : row → string) (w : World) :
  (∀ path, GOOGLE_APPLICATION_CREDENTIALS (environment w) = Some path →
           path = "" ∨ path ∉ existing_paths (environment w)) →
  let m := "Service account credentials file not found at "
           +:+ format_optional
                 (GOOGLE_APPLICATION_CREDENTIALS (environment w)) in
  Logged.add_order order w
  = (Return (JSONResponse 500
       {[ "detail" := "Error accessing Google Sheet: " +:+ m ]}),
     printed w [ "[ERROR] Google Sheets access failed: " +:+ m;
                 "[ERROR] Failed to add order: " +:+ m ])
  ∧ Logged.get_order_history repr_row error_text w
    = (Return (JSONResponse 500
         {[ "detail" := "Error accessing Google Sheet: " +:+ m ]}),
       printed w [ "[ERROR] Google Sheets access failed: " +:+ m;
                   "[ERROR] Failed to fetch order history: " +:+ m ]).
Proof.
  intros Hc m.
  assert (open_fault (effective_sheet w) = Some m) as Hf.
  { unfold effective_sheet, credentials_fault, m. simpl.
    destruct (GOOGLE_APPLICATION_CREDENTIALS (environment w)) as [path|];
      [|done].
    rewrite bool_decide_eq_false_2; [done|].
    intros [? ?]. by destruct (Hc path eq_refl). }
  split.
  - rewrite logged_add_order_unfold. by rewrite Hf.
  - unfold Logged.get_order_history, try_except_io, mbind, PyIO_bind.
    rewrite logged_get_gsheet_unfold, Hf.
    unfold print, mret, PyIO_ret, printed. simpl. by rewrite <- app_assoc.
Qed.

Lemma missing_credentials_reported_witness :
  Logged.add_order (widget "Widget" 15) no_credentials_world
  = (Return (JSONResponse 500
       {[ "detail" := "Error accessing Google Sheet: " +:+
            ("Service account credentials file not found at " +:+ "None") ]}),
     printed no_credentials_world
       [ "[ERROR] Google Sheets access failed: " +:+
           ("Service account credentials file not found at " +:+ "None");
         "[ERROR] Failed to add order: " +:+
           ("Service account credentials file not found at " +:+ "None") ]).
Proof.
  refine (proj1 (missing_credentials_reported (widget "Widget" 15)
                   (λ _, "row") (λ _, "error") no_credentials_world _)).
  by intros path [=].
Defined.

(** X13.
    What [add_order] prints goes with what it answers: a confirmed call
    prints nothing; a failed call answers with status 500, leaves the sheet
    as it was and prints, last, the line with the very message its response
    carries; the line of [get_gsheet], with the same message, comes before
    it exactly when opening the sheet is what failed. *)
Theorem add_order_prints_what_it_reports (order : OrderRequest) (w : World) :
  match Logged.add_order order w with
  | (Return (Ok _), w') =>
      stdout w' = stdout w ∧ open_fault (effective_sheet w) = None
  | (Return (JSONResponse status_code content), w') =>
      status_code = 500 ∧ sheet w' = sheet w ∧
      ∃ m, content = {[ "detail" := "Error accessing Google Sheet: " +:+ m ]}
           ∧ match open_fault (effective_sheet w) with
             | Some opening =>
                 opening = m ∧
                 stdout w'
                 = stdout w ++ ["[ERROR] Google Sheets access failed: " +:+ m;
                                "[ERROR] Failed to add order: " +:+ m]
             | None =>
                 stdout w'
                 = stdout w ++ ["[ERROR] Failed to add order: " +:+ m]
             end
  | (Raise _, _) => False
  end.
Proof.
  rewrite logged_add_order_unfold. cbv zeta.
  destruct (open_fault (effective_sheet w)) as [m|].
  { repeat split. by exists m. }
  destruct (read_fault (sheet w)) as [m|].
  { repeat split. by exists m. }
  destruct (BE.previous_price_loop _ _ _) as [p|m].
  2: { repeat split. by exists m. }
  destruct (append_fault (sheet w)) as [m|]; [|done].
  repeat split. by exists m.
Qed.

Lemma logged_history_loop (repr_row error_text : row → string)
    (records : list row) :
  ∀ orders w,
  Logged.history_loop repr_row error_text records orders w
  = (Return (orders ++ omap parsed records),
     printed w (parse_error_lines repr_row error_text records)).
Proof.
  induction records as [|r records IH]; intros orders w.
  - simpl. unfold mret, PyIO_ret. by rewrite app_nil_r, printed_nil.
  - simpl. fold (with_price_change_str r). fold (parsed r).
    unfold parse_error_lines. simpl.
    destruct (parsed r) as [item|].
    + rewrite IH. by rewrite <- app_assoc.
    + unfold mbind, PyIO_bind, print. rewrite IH.
      unfold printed. simpl. by rewrite <- app_assoc.
Qed.

(** X14.
    Whenever the sheet can be opened and read, ListOrders prints one line
    for each row it drops, in the order of the rows, showing the row with
    its price change cell already turned into a string, and prints nothing
    for the rows it lists; the answer and the sheet are those of the
    listing studied above. *)
Theorem list_orders_prints_dropped_rows (repr_row error_text : row → string)
    (w : World) :
  reachable (effective_sheet w) →
  Logged.get_order_history repr_row error_text w
  = (Return (Ok {| BE.orders := omap parsed (records_of (sheet w)) |}),
     printed w (parse_error_lines repr_row error_text
                  (records_of (sheet w)))).
Proof.
  intros [Ho Hr].
  unfold Logged.get_order_history, try_except_io, mbind, PyIO_bind.
  rewrite logged_get_gsheet_unfold, Ho.
  unfold on_sheet, get_all_records.
  change (read_fault (effective_sheet w)) with (read_fault (sheet w)) in Hr.
  rewrite Hr. rewrite logged_history_loop.
  unfold mret, PyIO_ret. simpl. by destruct w.
Qed.

Lemma list_orders_prints_dropped_rows_witness :
  length (stdout (Logged.get_order_history (λ _, "row") (λ _, "error")
                    (working_world mixed_sheet)).2) = 1%nat.
Proof.
  rewrite (list_orders_prints_dropped_rows (λ _, "row") (λ _, "error")
             (working_world mixed_sheet)); [|by split].
  by vm_compute.
Defined.

(** ** The same order submitted twice *)

Lemma float_eqb_refl (x : float) : isfinite x = true → (x =? x)%float = true.
Proof.
  unfold isfinite. rewrite FloatAxioms.eqb_spec. unfold SFeqb.
  destruct (Prim2SF x) as [s|s| |s m e]; try done. intros _. simpl.
  rewrite Z.compare_refl.
  change (Pos.compare_cont Eq m m) with (m ?= m)%positive.
  rewrite Pos.compare_refl. by destruct s.
Qed.

(** X15.
    CreateOrder is not idempotent: on a ledger that is ready, submitting
    twice the same order for a product whose name does not look numeric
    appends two rows, and when its price is finite the second confirmation
    carries the sentinel. *)
Theorem resubmitted_order_gets_sentinel (order : OrderRequest) (sh : Sheet) :
  ledger_ready sh →
  reads_as_text (OrderRequest.product_name order) →
  isfinite (OrderRequest.price order) = true →
  ∃ l, create_orders [order; order] sh
       = ([ Return (Ok (confirmation l)); Return (Ok (confirmation "-")) ],
          appended (appended sh (order_row order l)) (order_row order "-")).
Proof.
  intros Hsh Hn Hfin.
  pose proof (add_order_ready order sh Hsh) as (Hadd & Hrec & Hsh1).
  specialize (Hsh1 Hn).
  set (l := BE.price_change_of order _) in *.
  pose proof (add_order_ready order _ Hsh1) as (Hadd2 & _ & _).
  exists l. simpl create_orders. rewrite Hadd, Hadd2.
  assert (BE.price_change_of order
            (retained_price order
               (records_of (appended sh (order_row order l)))) = "-") as ->;
    [|done].
  unfold retained_price. rewrite Hrec.
  rewrite last_matching_snoc by by apply order_record_same_product.
  simpl. rewrite order_record_price. unfold BE.price_change_of.
  by rewrite float_sub_eqb, float_eqb_refl.
Qed.

Lemma resubmitted_order_gets_sentinel_witness :
  ∃ l, create_orders [widget "Widget" 15; widget "Widget" 15] widget_sheet
       = ([ Return (Ok (confirmation l)); Return (Ok (confirmation "-")) ],
          appended (appended widget_sheet (order_row (widget "Widget" 15) l))
            (order_row (widget "Widget" 15) "-")).
Proof.
  refine (resubmitted_order_gets_sentinel (widget "Widget" 15) widget_sheet
            _ _ _).
  - repeat split. repeat (constructor; [by vm_compute|]). constructor.
  - by vm_compute.
  - by vm_compute.
Defined.

(** ** A sheet without a product name column *)

Lemma lower_empty (s : string) : PyStr.lower s = "" → s = "".
Proof. by destruct s. Qed.

Lemma rstrip_empty (s : string) : PyStr.rstrip s = "" → blank s = true.
Proof.
  induction s as [|c s IH]; [done|]. simpl.
  destruct (PyStr.rstrip s); [|done].
  destruct (PyStr.isspace c); [|done]. intros _. by apply IH.
Qed.

Lemma lstrip_blank_inv (s : string) :
  blank (PyStr.lstrip s) = true → blank s = true.
Proof.
  induction s as [|c s IH]; [done|]. simpl.
  destruct (PyStr.isspace c) eqn:Hc; simpl; [done|]. by rewrite Hc.
Qed.

Lemma normalize_blank (s : string) :
  PyStr.lower (PyStr.strip s) = "" ↔ blank s = true.
Proof.
  split.
  - intros H%lower_empty. by apply lstrip_blank_inv, rstrip_empty.
  - intros H. unfold PyStr.strip. by rewrite lstrip_all_blank.
Qed.

Lemma filter_without_name (order : OrderRequest) (records : list row) :
  Forall (λ r : row, r !! "product_name" = None) records →
  List.filter (same_product order) records
  = if blank (OrderRequest.product_name order) then records else [].
Proof.
  intros Hall.
  assert (∀ r : row, r !! "product_name" = None →
            same_product order r = blank (OrderRequest.product_name order))
    as Hsame.
  { intros r Hr. unfold same_product, dict_get. rewrite Hr. simpl.
    destruct (PyStr.lower (PyStr.strip (OrderRequest.product_name order)))
      eqn:E.
    - symmetry. by apply normalize_blank.
    - destruct (blank _) eqn:Hb; [|done].
      apply normalize_blank in Hb. congruence. }
  induction Hall as [|r records Hr _ IH]; simpl.
  - by destruct (blank _).
  - rewrite (Hsame r Hr), IH. by destruct (blank _).
Qed.

(** X16.
    When the fetched rows have no product_name field (the header of the
    sheet names the column otherwise), every row counts as a row of the
    product with the empty name: an order whose name is blank is compared
    with the last row of the sheet, and every other order is confirmed with
    the sentinel. *)
Theorem missing_name_column (order : OrderRequest) (sh : Sheet) :
  writable sh →
  Forall (λ r : row, r !! "product_name" = None) (records_of sh) →
  (BE.add_order order sh).1
  = Return (Ok (confirmation
      (BE.price_change_of order
         (if blank (OrderRequest.product_name order)
          then last (records_of sh) ≫= usable_price
          else None)))).
Proof.
  intros [[Ho Hr] Ha] Hall.
  assert (Forall (λ r, textual r = true) (records_of sh)) as Htext.
  { eapply Forall_impl; [exact Hall|]. intros r Hn.
    unfold textual, dict_get. by rewrite Hn. }
  rewrite add_order_unfold, Ho, Hr, Ha.
  rewrite (proj2 (previous_price_loop_spec order (records_of sh) _)
             (conj Htext eq_refl)).
  simpl. do 3 f_equal. unfold retained_price, last_matching.
  rewrite filter_without_name by done. by destruct (blank _).
Qed.

Lemma missing_name_column_witness :
  (BE.add_order (widget "Widget" 15) renamed_column_sheet).1
  = Return (Ok (confirmation "-"))
  ∧ (BE.add_order (widget "  " 15) renamed_column_sheet).1
    = Return (Ok (confirmation "5.0")).
Proof.
  split.
  - refine (missing_name_column (widget "Widget" 15) renamed_column_sheet
              _ _); [by repeat split|].
    repeat (constructor; [by vm_compute|]). constructor.
  - refine (missing_name_column (widget "  " 15) renamed_column_sheet
              _ _); [by repeat split|].
    repeat (constructor; [by vm_compute|]). constructor.
Defined.
